(** * Obsidian vault indexer: filename classification, redaction, vault walk
      and per-folder rendering

    A shallow embedding of [vault_indexer.py].  Python [str] values are
    modelled as [string]; each character stands for the code point of the
    same number (0..255), so the ASCII digits are the only decimal digits and
    the white space characters are those Python knows below 256.  Paths follow
    the POSIX flavour of [pathlib] (separator [/]), with [stem] and [suffix]
    as in Python 3.4 to 3.13.

    A [str] with a code point above 255 is outside these definitions.  The
    one place of the program where such a [str] can raise is the encoding of
    the stem before it is hashed: [Utf8] below has [str.encode] on all code
    points, with its error on surrogates, and [short_hash] has the hashing
    line of [redact_filename] on a stem given by its code points. *)

From Stdlib Require Import String Ascii List ZArith Lia Bool Arith PeanoNat.
From Stdlib Require Import DecimalString.
From Stdlib Require Import Permutation Sorted.
Import ListNotations.
Open Scope string_scope.
Open Scope list_scope.
Open Scope nat_scope.

(** String concatenation, Python's [+] on [str]. *)
Infix "+++" := String.append (right associativity, at level 60).

(** ** Python string primitives *)

Module Py.

(** [s[:n]] and [s[n:]] for [0 <= n]. *)
Fixpoint take (n : nat) (s : string) : string :=
  match n, s with
  | S n', String c s' => String c (take n' s')
  | _, _ => ""
  end.

Fixpoint drop (n : nat) (s : string) : string :=
  match n, s with
  | S n', String _ s' => drop n' s'
  | _, _ => s
  end.

(** [s.rfind(c)]: index of the last occurrence, [None] for -1. *)
Fixpoint rfind (c : ascii) (s : string) : option nat :=
  match s with
  | "" => None
  | String a s' =>
      match rfind c s' with
      | Some i => Some (S i)
      | None => if Ascii.eqb a c then Some 0 else None
      end
  end.

(** [needle in hay]. *)
Fixpoint contains (needle hay : string) : bool :=
  prefix needle hay ||
  match hay with
  | "" => false
  | String _ hay' => contains needle hay'
  end.

(** [s.startswith(p)]. *)
Definition startswith (p s : string) : bool := prefix p s.

(** [x in l] for a list of strings. *)
Definition mem (x : string) (l : list string) : bool :=
  existsb (String.eqb x) l.

(** Code points below 256 for which [str.isspace] holds; [\s] of [re] and
    [str.split()] use the same set. *)
Definition is_space (c : ascii) : bool :=
  let n := nat_of_ascii c in
  ((9 <=? n) && (n <=? 13)) || ((28 <=? n) && (n <=? 32))
  || (n =? 133) || (n =? 160).

(** Code points below 256 of category Nd: the ASCII digits. *)
Definition is_digit (c : ascii) : bool :=
  let n := nat_of_ascii c in (48 <=? n) && (n <=? 57).

(** [s.split()]: the maximal runs of non-space characters. *)
Fixpoint split_ws_aux (s cur : string) : list string :=
  match s with
  | "" => if String.eqb cur "" then [] else [cur]
  | String c s' =>
      if is_space c
      then (if String.eqb cur "" then split_ws_aux s' ""
            else cur :: split_ws_aux s' "")
      else split_ws_aux s' (cur +++ String c "")
  end.

Definition split_ws (s : string) : list string := split_ws_aux s "".

(** [s.split(sep)] for a one-character separator. *)
Fixpoint split_on (sep : ascii) (s : string) : list string :=
  match s with
  | "" => [""]
  | String c s' =>
      if Ascii.eqb c sep then "" :: split_on sep s'
      else match split_on sep s' with
           | w :: ws => String c w :: ws
           | [] => [String c ""]
           end
  end.

(** [sep.join(l)]. *)
Definition join (sep : string) (l : list string) : string := String.concat sep l.

(** [c.lower()] on the ASCII letters; a code point in 128..255 lowers to a
    code point in 128..255. *)
Definition lower_char (c : ascii) : ascii :=
  let n := nat_of_ascii c in
  if (65 <=? n) && (n <=? 90) then ascii_of_nat (n + 32) else c.

Fixpoint lower (s : string) : string :=
  match s with
  | "" => ""
  | String c s' => String (lower_char c) (lower s')
  end.

(** [str(n)] for a natural number. *)
Definition str_of_nat (n : nat) : string :=
  NilZero.string_of_uint (Nat.to_uint n).

End Py.

(** ** [pathlib.PurePosixPath]: name, suffix and stem *)

Module Pathlib.

(** The parts of a path: the components between separators, without the
    empty ones and the [.] ones. *)
Definition parts (p : string) : list string :=
  filter (fun c => negb (String.eqb c "") && negb (String.eqb c "."))
         (Py.split_on "/" p).

(** [Path(p).name]: the last part, or the empty string. *)
Definition name (p : string) : string := last (parts p) "".

(** The index [i] of the last dot when [0 < i < len(name) - 1]. *)
Definition suffix_index (nm : string) : option nat :=
  match Py.rfind "." nm with
  | Some i => if (0 <? i) && (i <? String.length nm - 1) then Some i else None
  | None => None
  end.

(** [Path(p).suffix]. *)
Definition suffix (p : string) : string :=
  let nm := name p in
  match suffix_index nm with
  | Some i => Py.drop i nm
  | None => ""
  end.

(** [Path(p).stem]. *)
Definition stem (p : string) : string :=
  let nm := name p in
  match suffix_index nm with
  | Some i => Py.take i nm
  | None => nm
  end.

End Pathlib.

(** ** The regular expressions of the classifier

    Every pattern of [detect_filename_pattern] is anchored at the start and is
    a sequence of single-character classes, each with a fixed count or a [+].
    [re.match] on such a pattern is modelled by consuming the classes one
    after the other. *)

Module Re.

Definition is_char (a : ascii) (c : ascii) : bool := Ascii.eqb c a.

(** [[a-f0-9]] under [re.IGNORECASE]. *)
Definition is_hex_ci (c : ascii) : bool :=
  let n := nat_of_ascii c in
  ((48 <=? n) && (n <=? 57)) || ((97 <=? n) && (n <=? 102))
  || ((65 <=? n) && (n <=? 70)).

(** [W] under [re.IGNORECASE]. *)
Definition is_w_ci (c : ascii) : bool :=
  Ascii.eqb c "W" || Ascii.eqb c "w".

(** [[\s\-_\.]]. *)
Definition is_sep (c : ascii) : bool :=
  Py.is_space c || Ascii.eqb c "-" || Ascii.eqb c "_" || Ascii.eqb c ".".

(** Consume one character per class; the rest of the subject on success. *)
Fixpoint consume (classes : list (ascii -> bool)) (s : string) : option string :=
  match classes with
  | [] => Some s
  | p :: classes' =>
      match s with
      | String c s' => if p c then consume classes' s' else None
      | "" => None
      end
  end.

(** [$] without [re.MULTILINE]: at the end of the subject, or just before a
    line feed that ends it. *)
Definition at_dollar (rest : string) : bool :=
  String.eqb rest "" || String.eqb rest (String (ascii_of_nat 10) "").

(** [re.match('^' + classes + '$', s)] succeeds. *)
Definition match_exact (classes : list (ascii -> bool)) (s : string) : bool :=
  match consume classes s with
  | Some rest => at_dollar rest
  | None => false
  end.

(** The longest prefix of characters in a class, and what follows it. *)
Fixpoint span (p : ascii -> bool) (s : string) : string * string :=
  match s with
  | String c s' =>
      if p c then let '(a, b) := span p s' in (String c a, b) else ("", s)
  | "" => ("", "")
  end.

Definition digits (n : nat) : list (ascii -> bool) := repeat Py.is_digit n.
Definition hexes (n : nat) : list (ascii -> bool) := repeat is_hex_ci n.
Definition lit (a : ascii) : list (ascii -> bool) := [is_char a].

(** [^\d{4}-\d{2}-\d{2}$] *)
Definition re_date_ymd_hyphen : list (ascii -> bool) :=
  digits 4 ++ lit "-" ++ digits 2 ++ lit "-" ++ digits 2.
(** [^\d{4}\.\d{2}\.\d{2}$] *)
Definition re_date_ymd_dot : list (ascii -> bool) :=
  digits 4 ++ lit "." ++ digits 2 ++ lit "." ++ digits 2.
(** [^\d{2}-\d{2}-\d{4}$] *)
Definition re_date_mdy : list (ascii -> bool) :=
  digits 2 ++ lit "-" ++ digits 2 ++ lit "-" ++ digits 4.
(** [^\d{4}-W\d{2}$], ignoring case *)
Definition re_week : list (ascii -> bool) :=
  digits 4 ++ lit "-" ++ [is_w_ci] ++ digits 2.
(** [^[a-f0-9]{8}-[a-f0-9]{4}-[a-f0-9]{4}-[a-f0-9]{4}-[a-f0-9]{12}$],
    ignoring case *)
Definition re_uuid : list (ascii -> bool) :=
  hexes 8 ++ lit "-" ++ hexes 4 ++ lit "-" ++ hexes 4 ++ lit "-"
  ++ hexes 4 ++ lit "-" ++ hexes 12.

(** [re.match(r'^(\d+[\s\-_\.]+)', s)]: group 1 on success.  Both runs are
    greedy and nothing follows them, so group 1 is the longest run of
    digits followed by the longest run of separators. *)
Definition match_numbered_prefix (s : string) : option string :=
  let '(ds, rest) := span Py.is_digit s in
  let '(seps, _) := span is_sep rest in
  if String.eqb ds "" || String.eqb seps "" then None
  else Some (ds +++ seps).

End Re.

(** ** [hashlib.md5] (RFC 1321) on 32-bit words held in [Z] *)

Module MD5.
Local Open Scope Z_scope.

Definition mask32 : Z := 0xffffffff.
Definition add32 (x y : Z) : Z := Z.land (x + y) mask32.
Definition not32 (x : Z) : Z := Z.lxor x mask32.
Definition rotl32 (x c : Z) : Z :=
  Z.land (Z.lor (Z.shiftl x c) (Z.shiftr x (32 - c))) mask32.

(** Per-round shift amounts. *)
Definition S_table : list Z :=
  [7; 12; 17; 22; 7; 12; 17; 22; 7; 12; 17; 22; 7; 12; 17; 22;
   5; 9; 14; 20; 5; 9; 14; 20; 5; 9; 14; 20; 5; 9; 14; 20;
   4; 11; 16; 23; 4; 11; 16; 23; 4; 11; 16; 23; 4; 11; 16; 23;
   6; 10; 15; 21; 6; 10; 15; 21; 6; 10; 15; 21; 6; 10; 15; 21].

(** [K[i] = floor(2^32 * abs(sin(i + 1)))]. *)
Definition K_table : list Z :=
  [0xd76aa478; 0xe8c7b756; 0x242070db; 0xc1bdceee;
   0xf57c0faf; 0x4787c62a; 0xa8304613; 0xfd469501;
   0x698098d8; 0x8b44f7af; 0xffff5bb1; 0x895cd7be;
   0x6b901122; 0xfd987193; 0xa679438e; 0x49b40821;
   0xf61e2562; 0xc040b340; 0x265e5a51; 0xe9b6c7aa;
   0xd62f105d; 0x02441453; 0xd8a1e681; 0xe7d3fbc8;
   0x21e1cde6; 0xc33707d6; 0xf4d50d87; 0x455a14ed;
   0xa9e3e905; 0xfcefa3f8; 0x676f02d9; 0x8d2a4c8a;
   0xfffa3942; 0x8771f681; 0x6d9d6122; 0xfde5380c;
   0xa4beea44; 0x4bdecfa9; 0xf6bb4b60; 0xbebfbc70;
   0x289b7ec6; 0xeaa127fa; 0xd4ef3085; 0x04881d05;
   0xd9d4d039; 0xe6db99e5; 0x1fa27cf8; 0xc4ac5665;
   0xf4292244; 0x432aff97; 0xab9423a7; 0xfc93a039;
   0x655b59c3; 0x8f0ccc92; 0xffeff47d; 0x85845dd1;
   0x6fa87e4f; 0xfe2ce6e0; 0xa3014314; 0x4e0811a1;
   0xf7537e82; 0xbd3af235; 0x2ad7d2bb; 0xeb86d391].

(** [str.encode()]: UTF-8 of the code points below 256, on which it cannot
    fail; [Utf8.encode] below is [str.encode()] on every [str]. *)
Definition utf8_char (c : ascii) : list Z :=
  let n := Z.of_nat (nat_of_ascii c) in
  if n <? 128 then [n]
  else [Z.lor 0xc0 (Z.shiftr n 6); Z.lor 0x80 (Z.land n 0x3f)].

Fixpoint encode (s : string) : list Z :=
  match s with
  | EmptyString => []
  | String c s' => utf8_char c ++ encode s'
  end.

(** The [n] low bytes of [x], least significant first. *)
Fixpoint bytes_le (n : nat) (x : Z) : list Z :=
  match n with
  | O => []
  | S n' => Z.land x 0xff :: bytes_le n' (Z.shiftr x 8)
  end.

(** Padding: a [0x80] byte, zeros up to 56 modulo 64, then the bit length
    on 64 bits. *)
Definition pad (msg : list Z) : list Z :=
  let len := List.length msg in
  let zeros := ((119 - len mod 64) mod 64)%nat in
  msg ++ [0x80] ++ repeat 0 zeros
      ++ bytes_le 8 (Z.land (8 * Z.of_nat len) 0xffffffffffffffff).

(** Word [g] of a 64-byte block, little endian. *)
Definition word_at (block : list Z) (g : nat) : Z :=
  let b (k : nat) := nth (4 * g + k) block 0 in
  Z.lor (b 0%nat)
    (Z.lor (Z.shiftl (b 1%nat) 8)
       (Z.lor (Z.shiftl (b 2%nat) 16) (Z.shiftl (b 3%nat) 24))).

Definition state : Type := Z * Z * Z * Z.

Definition step (block : list Z) (st : state) (i : nat) : state :=
  let '(A, B, C, D) := st in
  let '(F, g) :=
    if (i <? 16)%nat then
      (Z.lor (Z.land B C) (Z.land (not32 B) D), i)
    else if (i <? 32)%nat then
      (Z.lor (Z.land D B) (Z.land (not32 D) C), ((5 * i + 1) mod 16)%nat)
    else if (i <? 48)%nat then
      (Z.lxor (Z.lxor B C) D, ((3 * i + 5) mod 16)%nat)
    else
      (Z.lxor C (Z.lor B (not32 D)), ((7 * i) mod 16)%nat) in
  let F' := add32 (add32 (add32 F A) (nth i K_table 0)) (word_at block g) in
  (D, add32 B (rotl32 F' (nth i S_table 0)), B, C).

Definition compress (block : list Z) (st : state) : state :=
  let '(a0, b0, c0, d0) := st in
  let '(A, B, C, D) := fold_left (step block) (seq 0 64) st in
  (add32 a0 A, add32 b0 B, add32 c0 C, add32 d0 D).

Fixpoint blocks (n : nat) (data : list Z) (st : state) : state :=
  match n with
  | O => st
  | S n' => blocks n' (skipn 64 data) (compress (firstn 64 data) st)
  end.

Definition init : state := (0x67452301, 0xefcdab89, 0x98badcfe, 0x10325476).

Definition digest (msg : list Z) : list Z :=
  let data := pad msg in
  let '(a, b, c, d) := blocks (List.length data / 64) data init in
  bytes_le 4 a ++ bytes_le 4 b ++ bytes_le 4 c ++ bytes_le 4 d.

Definition hex_digit (n : Z) : ascii :=
  nth (Z.to_nat n)
      ["0"; "1"; "2"; "3"; "4"; "5"; "6"; "7";
       "8"; "9"; "a"; "b"; "c"; "d"; "e"; "f"]%char "0"%char.

Definition hex_byte (b : Z) : string :=
  String (hex_digit (Z.land (Z.shiftr b 4) 0xf))
         (String (hex_digit (Z.land b 0xf)) EmptyString).

Fixpoint hex (bs : list Z) : string :=
  match bs with
  | [] => EmptyString
  | b :: bs' => hex_byte b +++ hex bs'
  end.

(** [hashlib.md5(s.encode()).hexdigest()]. *)
Definition hexdigest (s : string) : string := hex (digest (encode s)).

End MD5.

(** ** [str.encode()] on every [str]

    A [str] is given here by the list of its code points.  The codec is
    UTF-8 and the error handler is [strict], the defaults: a surrogate
    (U+D800 to U+DFFF) cannot be encoded and [str.encode] raises
    [UnicodeEncodeError], which [None] stands for.  [os.walk] yields such a
    [str] for a file whose name is not valid UTF-8, one surrogate U+DC80 to
    U+DCFF for each byte that cannot be decoded. *)

Module Utf8.
Local Open Scope Z_scope.

Definition continuation (c shift : Z) : Z :=
  Z.lor 0x80 (Z.land (Z.shiftr c shift) 0x3f).

Definition encode_code_point (c : Z) : option (list Z) :=
  if c <? 0 then None
  else if c <? 0x80 then Some [c]
  else if c <? 0x800 then
    Some [Z.lor 0xc0 (Z.shiftr c 6); continuation c 0]
  else if (0xd800 <=? c) && (c <=? 0xdfff) then None
  else if c <? 0x10000 then
    Some [Z.lor 0xe0 (Z.shiftr c 12); continuation c 6; continuation c 0]
  else if c <? 0x110000 then
    Some [Z.lor 0xf0 (Z.shiftr c 18); continuation c 12; continuation c 6;
          continuation c 0]
  else None.

Fixpoint encode (s : list Z) : option (list Z) :=
  match s with
  | [] => Some []
  | c :: s' =>
      match encode_code_point c, encode s' with
      | Some bytes, Some rest => Some (bytes ++ rest)
      | _, _ => None
      end
  end.

End Utf8.

(** The code points of a [string]. *)
Fixpoint code_points (s : string) : list Z :=
  match s with
  | "" => []
  | String c s' => Z.of_nat (nat_of_ascii c) :: code_points s'
  end.

(** [hashlib.md5(name.encode()).hexdigest()[:6]], the first of the last
    lines of [redact_filename], on a stem given by its code points; [None]
    when the encoding raises. *)
Definition short_hash (name : list Z) : option string :=
  match Utf8.encode name with
  | Some bytes => Some (Py.take 6 (MD5.hex (MD5.digest bytes)))
  | None => None
  end.

(** The stem of the name that [os.walk] yields for the file whose name is
    the byte 0xFF followed by [.md]: the surrogate U+DCFF. *)
Definition undecodable_stem : list Z := [0xdcff%Z].

(** ** The classifier, the redactor and the categorizer *)

(** [SKIP_PATTERNS] *)
Definition SKIP_PATTERNS : list string :=
  [".obsidian"; ".trash"; ".git"; ".DS_Store"; "node_modules"].

(** [detect_filename_pattern(filename)]: the pattern type and its example
    format; the first rule that matches decides. *)
Definition detect_filename_pattern (filename : string) : string * string :=
  let name := Pathlib.stem filename in
  if Re.match_exact Re.re_date_ymd_hyphen name then ("daily_note", "YYYY-MM-DD")
  else if Re.match_exact Re.re_date_ymd_dot name then ("daily_note", "YYYY.MM.DD")
  else if Re.match_exact Re.re_date_mdy name then ("daily_note", "MM-DD-YYYY")
  else if Re.match_exact Re.re_week name then ("weekly_note", "YYYY-Www")
  else if Re.match_exact (Re.digits 14) name then ("zettelkasten", "YYYYMMDDHHmmss")
  else if Re.match_exact (Re.digits 12) name then ("timestamp", "YYYYMMDDHHmm")
  else if match Re.match_numbered_prefix name with Some _ => true | None => false end
       then ("numbered_prefix", "NNN - [Title]")
  else if Re.match_exact Re.re_uuid name then ("uuid", "UUID")
  else ("standard", "[Title]").

(** The last lines of [redact_filename]: the hash-based placeholder. *)
Definition standard_placeholder (name ext : string) : string :=
  let short_hash := Py.take 6 (MD5.hexdigest name) in
  let word_count := List.length (Py.split_ws name) in
  "[Note_" +++ short_hash +++ "] (~" +++ Py.str_of_nat word_count
           +++ " words in title)" +++ ext.

(** [redact_filename(filename, pattern_type)].  A [numbered_prefix] call whose
    prefix does not match goes on to the tests below it. *)
Definition redact_filename (filename pattern_type : string) : string :=
  let ext := Pathlib.suffix filename in
  let name := Pathlib.stem filename in
  if String.eqb pattern_type "daily_note" then
    if Py.contains "-" name then "2024-01-15" +++ ext else "2024.01.15" +++ ext
  else if String.eqb pattern_type "weekly_note" then "2024-W03" +++ ext
  else if String.eqb pattern_type "zettelkasten" then "20240115143022" +++ ext
  else if String.eqb pattern_type "timestamp" then "202401151430" +++ ext
  else
    match (if String.eqb pattern_type "numbered_prefix"
           then Re.match_numbered_prefix name else None) with
    | Some prefix => prefix +++ "[Redacted Title]" +++ ext
    | None =>
        if String.eqb pattern_type "uuid"
        then "xxxxxxxx-xxxx-xxxx-xxxx-xxxxxxxxxxxx" +++ ext
        else standard_placeholder name ext
    end.

(** The [categories] table of [get_file_type_category], in its order. *)
Definition categories : list (string * list string) :=
  [("notes", [".md"; ".markdown"; ".txt"]);
   ("images", [".png"; ".jpg"; ".jpeg"; ".gif"; ".svg"; ".webp"; ".bmp"]);
   ("documents", [".pdf"; ".doc"; ".docx"; ".xls"; ".xlsx"; ".ppt"; ".pptx"]);
   ("audio", [".mp3"; ".wav"; ".m4a"; ".ogg"; ".flac"]);
   ("video", [".mp4"; ".mov"; ".avi"; ".mkv"; ".webm"]);
   ("data", [".json"; ".csv"; ".yaml"; ".yml"; ".xml"]);
   ("code", [".py"; ".js"; ".ts"; ".html"; ".css"; ".sh"]);
   ("canvas", [".canvas"])].

(** [get_file_type_category(filename)] *)
Definition get_file_type_category (filename : string) : string :=
  let ext := Py.lower (Pathlib.suffix filename) in
  match find (fun cat => Py.mem ext (snd cat)) categories with
  | Some cat => fst cat
  | None => "other"
  end.

(** ** The structural model built by the scan *)

Record FileEntry := mkFileEntry {
  redacted_name : string;
  pattern : string;
  type : string;
  extension : string
}.

Record FolderInfo := mkFolderInfo {
  file_count : nat;
  subfolder_count : nat;
  files : list FileEntry;
  depth : nat
}.

Record Stats := mkStats {
  total_folders : nat;
  total_files : nat;
  file_types : list (string * nat);
  patterns_found : list (string * nat);
  depth_max : nat
}.

Record Structure := mkStructure {
  root : string;
  scanned_at : string;
  folders : list (string * FolderInfo);
  stats : Stats
}.

(** A Python [dict] with string keys, in insertion order: [d[k] = v] replaces
    the value of a key that is present and appends a new key otherwise. *)
Fixpoint dict_set {V : Type} (k : string) (v : V) (d : list (string * V))
  : list (string * V) :=
  match d with
  | [] => [(k, v)]
  | (k', v') :: d' =>
      if String.eqb k' k then (k, v) :: d' else (k', v') :: dict_set k v d'
  end.

Fixpoint dict_get {V : Type} (k : string) (d : list (string * V)) : option V :=
  match d with
  | [] => None
  | (k', v') :: d' => if String.eqb k' k then Some v' else dict_get k d'
  end.

(** [d[k] += 1] on a [defaultdict(int)]. *)
Definition incr (k : string) (d : list (string * nat)) : list (string * nat) :=
  dict_set k (S (match dict_get k d with Some n => n | None => 0 end)) d.

(** ** The directory tree under the vault root

    A directory that [os.walk] lists has its files and its subdirectories by
    name.  [Unlisted] is an entry that [os.walk] reports among the
    subdirectories of its parent and does not list: a symbolic link to a
    directory, or a directory that cannot be read. *)
#[local] Unset Elimination Schemes.
Inductive Node : Type :=
| Dir (fnames : list string) (subdirs : list (string * Node))
| Unlisted.
#[local] Set Elimination Schemes.

(** [os.walk(top)], top down, for a loop body that may prune the list of
    subdirectory names it receives: the body returns its new state and the
    names it has left in [dirs], and only those are descended into.  [top]
    is the list of directory names from the vault root. *)
Fixpoint os_walk {S : Type}
    (body : list string -> list string -> list string -> S -> S * list string)
    (top : list string) (n : Node) (s : S) : S :=
  match n with
  | Unlisted => s
  | Dir fnames subdirs =>
      let '(s1, dirs) := body top (map fst subdirs) fnames s in
      fold_left
        (fun s e =>
           if Py.mem (fst e) dirs
           then os_walk body (top ++ [fst e]) (snd e) s
           else s)
        subdirs s1
  end.

(** [os.path.relpath(root, vault)] for the directory reached from the vault
    through the names [top]. *)
Definition relpath (top : list string) : string :=
  match top with
  | [] => "."
  | _ => Py.join "/" top
  end.

(** [n not in SKIP_PATTERNS and not n.startswith('.')] *)
Definition keep (n : string) : bool :=
  negb (Py.mem n SKIP_PATTERNS) && negb (Py.startswith "." n).

(** [bool(l)] for a list. *)
Definition nonempty {A : Type} (l : list A) : bool :=
  match l with [] => false | _ => true end.

(** The body of the loop over [valid_files]: it appends to
    [folder_info['files']] and counts in [structure['stats']]. *)
Definition add_file (acc : list FileEntry * Stats) (filename : string)
  : list FileEntry * Stats :=
  let '(fl, st) := acc in
  let '(pattern_type, _) := detect_filename_pattern filename in
  let redacted := redact_filename filename pattern_type in
  let file_type := get_file_type_category filename in
  (fl ++ [mkFileEntry redacted pattern_type file_type (Pathlib.suffix filename)],
   mkStats (total_folders st) (S (total_files st))
           (incr file_type (file_types st))
           (incr pattern_type (patterns_found st))
           (depth_max st)).

(** The body of the loop over [os.walk(vault)]. *)
Definition visit (top dirs fnames : list string) (s : Structure)
  : Structure * list string :=
  let dirs := filter keep dirs in
  let rel_path := relpath top in
  let rel_path := if String.eqb rel_path "." then "" else rel_path in
  let depth :=
    if String.eqb rel_path "" then 0
    else List.length (Py.split_on "/" rel_path) in
  let st := stats s in
  let st1 := mkStats (total_folders st) (total_files st) (file_types st)
                     (patterns_found st) (Nat.max (depth_max st) depth) in
  let valid_files := filter keep fnames in
  if nonempty valid_files || nonempty dirs then
    let '(fl, st2) := fold_left add_file valid_files ([], st1) in
    let folder_info :=
      mkFolderInfo (List.length valid_files) (List.length dirs) fl depth in
    let key := if String.eqb rel_path "" then "/" else rel_path in
    let st3 :=
      if String.eqb rel_path "" then st2
      else mkStats (S (total_folders st2)) (total_files st2) (file_types st2)
                   (patterns_found st2) (depth_max st2) in
    (mkStructure (root s) (scanned_at s)
                 (dict_set key folder_info (folders s)) st3, dirs)
  else
    (mkStructure (root s) (scanned_at s) (folders s) st1, dirs).

(** [scan_vault(vault_path)], for a vault directory named [vault_name] whose
    tree is [v], scanned at time [now]. *)
Definition scan_vault (vault_name now : string) (v : Node) : Structure :=
  os_walk visit [] v
    (mkStructure vault_name now [] (mkStats 0 0 [] [] 0)).

(** ** The per-folder detail section of the report *)

Definition nl : string := String (ascii_of_nat 10) "".

(** One row of the table of examples. *)
Definition row (f : FileEntry) : string :=
  "| `" +++ redacted_name f +++ "` | " +++ pattern f +++ " | " +++ type f
        +++ " |" +++ nl.

(** The loop over [info['files']], with its [break]: the text, the number
    of rows shown and the patterns seen. *)
Fixpoint examples_loop (fs : list FileEntry) (md : string) (shown : nat)
    (seen_patterns : list string) : string * nat :=
  match fs with
  | [] => (md, shown)
  | file_info :: rest =>
      let pat := pattern file_info in
      let '(md, shown, seen_patterns) :=
        if negb (Py.mem pat seen_patterns) || (shown <? 3)
        then (md +++ row file_info, S shown,
              if Py.mem pat seen_patterns then seen_patterns
              else pat :: seen_patterns)
        else (md, shown, seen_patterns) in
      if 5 <=? shown then (md, shown)
      else examples_loop rest md shown seen_patterns
  end.

(** The body of the loop over the folders in [generate_markdown]; the folder
    sign is held as its UTF-8 bytes. *)
Definition folder_detail (md folder_path : string) (info : FolderInfo) : string :=
  let display_path :=
    if negb (String.eqb folder_path "/") then folder_path else "(root)" in
  let md := md +++ "### 📁 `" +++ display_path +++ "`" +++ nl +++ nl in
  let md :=
    if nonempty (files info) then
      let md := md +++ "| Redacted Name | Pattern | Type |" +++ nl in
      let md := md +++ "|---------------|---------|------|" +++ nl in
      let '(md, shown) := examples_loop (files info) md 0 [] in
      let remaining := List.length (files info) - shown in
      if 0 <? remaining
      then md +++ nl +++ "*...and " +++ Py.str_of_nat remaining
              +++ " more files*" +++ nl
      else md
    else md +++ "*Empty folder or contains only subfolders*" +++ nl in
  md +++ nl.

(** ** Notions the properties are stated with *)

(** [c in s] for one character. *)
Fixpoint char_in (c : ascii) (s : string) : bool :=
  match s with
  | "" => false
  | String a s' => Ascii.eqb a c || char_in c s'
  end.

(** Every character of [s] is in the class [p]. *)
Fixpoint all_in (p : ascii -> bool) (s : string) : bool :=
  match s with
  | "" => true
  | String a s' => p a && all_in p s'
  end.

(** The characters the hash-based placeholder is written with, besides those
    of the extension: its fixed text, the hexadecimal digits of the hash and
    the decimal digits of the word count. *)
Definition placeholder_alphabet : string :=
  "[Note_] (~ words in title)0123456789abcdef".

(** The fixed bodies of the redactor. *)
Definition fixed_bodies : list string :=
  ["2024-01-15"; "2024.01.15"; "2024-W03"; "20240115143022"; "202401151430";
   "xxxxxxxx-xxxx-xxxx-xxxx-xxxxxxxxxxxx"].

(** The pattern types with a branch of their own in [redact_filename]. *)
Definition branch_types : list string :=
  ["daily_note"; "weekly_note"; "zettelkasten"; "timestamp";
   "numbered_prefix"; "uuid"].

(** The lower-case hexadecimal digits of [hexdigest]. *)
Definition is_lower_hex (c : ascii) : bool := char_in c "0123456789abcdef".

(** The string is empty or begins with a character outside the class. *)
Definition starts_outside (p : ascii -> bool) (s : string) : bool :=
  match s with
  | "" => true
  | String c _ => negb (p c)
  end.

(** The stem [name] is a numbered prefix and a title: the digits [ds] that
    it begins with, all of them, then the separators [seps] that follow
    them, all of them, then [title]; there is a digit and there is a
    separator. *)
Definition numbered_split (name ds seps title : string) : Prop :=
  name = ds +++ seps +++ title
  /\ ds <> "" /\ all_in Py.is_digit ds = true
  /\ seps <> "" /\ all_in Re.is_sep seps = true
  /\ starts_outside Py.is_digit seps = true
  /\ starts_outside Re.is_sep title = true.

(** The no-leak property as the specification words it: no token of the
    stem, of four characters or more, occurs in the redacted name. *)
Definition no_token_leak (filename redacted : string) : Prop :=
  forall t, In t (Py.split_ws (Pathlib.stem filename)) ->
            4 <= String.length t -> Py.contains t redacted = false.

(** ** Trees as a file system has them, paths, and the trace of the walk *)

(** A name of a directory entry: not empty, not [.] or [..], and without
    the separator. *)
Definition valid_name (n : string) : bool :=
  negb (String.eqb n "") && negb (String.eqb n ".")
  && negb (String.eqb n "..") && negb (char_in "/" n).

Fixpoint nodupb (l : list string) : bool :=
  match l with
  | [] => true
  | x :: l' => negb (Py.mem x l') && nodupb l'
  end.

(** The subdirectories of a directory have valid names, different from one
    another, all the way down. *)
Fixpoint well_formed (n : Node) : bool :=
  match n with
  | Unlisted => true
  | Dir _ subdirs =>
      nodupb (map fst subdirs)
      && forallb (fun e => valid_name (fst e) && well_formed (snd e)) subdirs
  end.

(** The node at the end of a path of names from [n], none of which is
    excluded by the skip rule. *)
Fixpoint reach (n : Node) (p : list string) : option Node :=
  match p with
  | [] => Some n
  | d :: p' =>
      match n with
      | Dir _ subdirs =>
          if keep d then
            match dict_get d subdirs with
            | Some sub => reach sub p'
            | None => None
            end
          else None
      | Unlisted => None
      end
  end.

(** The tree without the subdirectories at path [p]: under the directory at
    the path [p] without its last name, the entries with that last name are
    deleted, with all that is below them. *)
Fixpoint remove_at (p : list string) (n : Node) {struct p} : Node :=
  match n with
  | Unlisted => Unlisted
  | Dir fnames subdirs =>
      match p with
      | [] => n
      | d :: p' =>
          match p' with
          | [] => Dir fnames (filter (fun e => negb (String.eqb (fst e) d)) subdirs)
          | _ :: _ =>
              Dir fnames
                  (map (fun e => if String.eqb (fst e) d
                                 then (fst e, remove_at p' (snd e)) else e)
                       subdirs)
          end
      end
  end.

(** What [os.walk] yields to the loop of [scan_vault], in order: the path,
    the subdirectory names and the file names of every directory listed. *)
Fixpoint yields (top : list string) (n : Node)
  : list (list string * list string * list string) :=
  match n with
  | Unlisted => []
  | Dir fnames subdirs =>
      (top, map fst subdirs, fnames)
        :: flat_map (fun e => if keep (fst e)
                              then yields (top ++ [fst e]) (snd e) else [])
                    subdirs
  end.

(** One turn of the loop of [scan_vault] on what [os.walk] yields. *)
Definition visit_yield (s : Structure)
    (y : list string * list string * list string) : Structure :=
  fst (visit (fst (fst y)) (snd (fst y)) (snd y) s).

(** The key of a directory in [structure['folders']]. *)
Definition folder_key (top : list string) : string :=
  let rel_path := relpath top in
  let rel_path := if String.eqb rel_path "." then "" else rel_path in
  if String.eqb rel_path "" then "/" else rel_path.

(** The entry that the loop over [valid_files] appends for a file name. *)
Definition entry_of (filename : string) : FileEntry :=
  let pattern_type := fst (detect_filename_pattern filename) in
  mkFileEntry (redact_filename filename pattern_type) pattern_type
              (get_file_type_category filename) (Pathlib.suffix filename).

(** Sums over the folder mapping. *)
Definition sum_len_files (fs : list (string * FolderInfo)) : nat :=
  list_sum (map (fun kv => List.length (files (snd kv))) fs).

Definition sum_file_count (fs : list (string * FolderInfo)) : nat :=
  list_sum (map (fun kv => file_count (snd kv)) fs).

(** The depths, in path segments from the vault root, of the directories
    that hold at least one countable file, and their maximum: the depth
    statistic as the specification words it. *)
Fixpoint file_dir_depths (d : nat) (n : Node) : list nat :=
  match n with
  | Unlisted => []
  | Dir fnames subdirs =>
      (if nonempty (filter keep fnames) then [d] else [])
        ++ flat_map (fun e => if keep (fst e)
                              then file_dir_depths (S d) (snd e) else [])
                    subdirs
  end.

Definition spec_depth_max (v : Node) : nat := list_max (file_dir_depths 0 v).

(** The files that the loop of examples shows, from [shown] rows and the
    patterns [seen_patterns] on. *)
Fixpoint shown_examples (fs : list FileEntry) (shown : nat)
    (seen_patterns : list string) : list FileEntry :=
  match fs with
  | [] => []
  | file_info :: rest =>
      let pat := pattern file_info in
      if negb (Py.mem pat seen_patterns) || (shown <? 3) then
        file_info ::
          (if 5 <=? S shown then []
           else shown_examples rest (S shown)
                  (if Py.mem pat seen_patterns then seen_patterns
                   else pat :: seen_patterns))
      else if 5 <=? shown then []
           else shown_examples rest shown seen_patterns
  end.

(** The rows of a list of files, one after the other. *)
Fixpoint rows (fs : list FileEntry) : string :=
  match fs with
  | [] => ""
  | f :: fs' => row f +++ rows fs'
  end.

(** [l1] is [l2] with some elements left out. *)
Inductive subseq {A : Type} : list A -> list A -> Prop :=
| subseq_nil : subseq [] []
| subseq_skip x l1 l2 : subseq l1 l2 -> subseq l1 (x :: l2)
| subseq_take x l1 l2 : subseq l1 l2 -> subseq (x :: l1) (x :: l2).

(** The depth that the loop of [scan_vault] computes for a directory. *)
Definition folder_depth (top : list string) : nat :=
  let rel_path := relpath top in
  let rel_path := if String.eqb rel_path "." then "" else rel_path in
  if String.eqb rel_path "" then 0
  else List.length (Py.split_on "/" rel_path).

(** The [FolderInfo] that the loop of [scan_vault] records for a directory. *)
Definition folder_info_of (top dirs fnames : list string) : FolderInfo :=
  mkFolderInfo (List.length (filter keep fnames))
               (List.length (filter keep dirs))
               (map entry_of (filter keep fnames))
               (folder_depth top).

(** The directory is recorded: it has a countable file or a subdirectory
    that is not excluded. *)
Definition recorded (dirs fnames : list string) : bool :=
  nonempty (filter keep fnames) || nonempty (filter keep dirs).

(** A path of names that directory entries can have. *)
Definition valid_path (p : list string) : Prop :=
  Forall (fun n => valid_name n = true) p.

(** The node at the end of a path of names from [n], excluded or not. *)
Fixpoint locate (n : Node) (p : list string) : option Node :=
  match p with
  | [] => Some n
  | d :: p' =>
      match n with
      | Dir _ subdirs =>
          match dict_get d subdirs with
          | Some sub => locate sub p'
          | None => None
          end
      | Unlisted => None
      end
  end.

(** The scan counts as many files as its folder mapping holds. *)
Definition counted (s : Structure) : Prop :=
  total_files (stats s) = sum_len_files (folders s)
  /\ total_files (stats s) = sum_file_count (folders s).

(** The path of a yield. *)
Definition yield_top (y : list string * list string * list string)
  : list string := fst (fst y).

(** ** Induction on trees and on characters *)

Section NodeInduction.

Variable P : Node -> Prop.
Hypothesis P_unlisted : P Unlisted.
Hypothesis P_dir :
  forall fnames subdirs,
    Forall (fun e => P (snd e)) subdirs -> P (Dir fnames subdirs).

Fixpoint Node_ind (n : Node) : P n :=
  match n with
  | Unlisted => P_unlisted
  | Dir fnames subdirs =>
      P_dir fnames subdirs
        ((fix all (l : list (string * Node)) : Forall (fun e => P (snd e)) l :=
            match l with
            | [] => Forall_nil _
            | e :: l' => Forall_cons e (Node_ind (snd e)) (all l')
            end) subdirs)
  end.

End NodeInduction.

(** Case analysis on the 256 characters. *)
Ltac each_char c :=
  destruct c as [[] [] [] [] [] [] [] []]; vm_compute; try reflexivity;
  try discriminate; intuition discriminate.

(** ** Example vaults *)

(** The vault of the end-to-end example, with a [.git] directory added. *)
Definition example_vault : Node :=
  Dir []
      [("Journal", Dir ["2024-01-15.md"; "2024-01-16.md"] []);
       ("Inbox", Dir ["a1b2c3d4-e5f6-7890-abcd-ef1234567890.png"] []);
       (".git", Dir ["config"; "HEAD"] [("objects", Dir ["pack"] [])])].

(** A vault with a directory that holds only hidden entries and a directory
    that holds nothing. *)
Definition vault_with_empty_dirs : Node :=
  Dir ["a.md"]
      [("Archive", Dir [".hidden"] [(".cache", Dir ["x.md"] [])]);
       ("Notes", Dir ["Ideas.md"] [("Drafts", Dir [] [])])].

(** A vault whose only countable file is at the root, beside an empty
    directory. *)
Definition vault_with_empty_subdir : Node :=
  Dir ["a.md"] [("Empty", Dir [] [])].

(** A vault three directories deep. *)
Definition deep_vault : Node :=
  Dir ["a.md"]
      [("Projects", Dir [] [("2024", Dir ["plan.md"] [("Q3", Dir [] [])])]);
       (".trash", Dir [] [("a", Dir [] [("b", Dir [] [("c", Dir ["x.md"] [])])])])].

(** The directory with the file names [fnames] and the subdirectories
    [subdirs] is in the tree at the end of the path [p], every name of which
    the skip rule keeps. *)
Inductive listed
  : Node -> list string -> list string -> list (string * Node) -> Prop :=
| listed_here fnames subdirs : listed (Dir fnames subdirs) [] fnames subdirs
| listed_below fnames subdirs d sub p fnames' subdirs' :
    In (d, sub) subdirs -> keep d = true ->
    listed sub p fnames' subdirs' ->
    listed (Dir fnames subdirs) (d :: p) fnames' subdirs'.

(** The entry [e] is the entry of the file named [filename]: its extension
    is the suffix of that name as it is spelled, its pattern is the pattern
    type of that name, and its redacted name is the redacted form of that
    name, which ends with that suffix. *)
Definition built_from (e : FileEntry) (filename : string) : Prop :=
  extension e = Pathlib.suffix filename
  /\ pattern e = fst (detect_filename_pattern filename)
  /\ redacted_name e = redact_filename filename (pattern e)
  /\ exists body, redacted_name e = body +++ Pathlib.suffix filename.

(** A folder with six files of six pattern types, and a folder with four
    files of the standard type, as the scan records them. *)
Definition folder_six_patterns : FolderInfo :=
  folder_info_of ["Inbox"] []
    ["2024-01-15.md"; "2024-W03.md"; "20240115143022.md"; "202401151430.md";
     "001 - a.md"; "a1b2c3d4-e5f6-7890-abcd-ef1234567890.md"].

Definition folder_four_standard : FolderInfo :=
  folder_info_of ["Notes"] [] ["a.md"; "b.md"; "c.md"; "d.md"].

(** The heading of a folder and the head of its table. *)
Definition detail_heading (folder_path : string) : string :=
  "### 📁 `" +++ (if negb (String.eqb folder_path "/") then folder_path
                 else "(root)") +++ "`" +++ nl +++ nl.

Definition table_head : string :=
  "| Redacted Name | Pattern | Type |" +++ nl
  +++ "|---------------|---------|------|" +++ nl.

(** ** Further notions for the scan *)

(** The tree without the files that the skip rule excludes. *)
Fixpoint without_excluded_files (n : Node) : Node :=
  match n with
  | Unlisted => Unlisted
  | Dir fnames subdirs =>
      Dir (filter keep fnames)
          (map (fun e => (fst e, without_excluded_files (snd e))) subdirs)
  end.

(** The number of files that the skip rule keeps, in the directories that
    the walk lists. *)
Fixpoint countable_files (n : Node) : nat :=
  match n with
  | Unlisted => 0
  | Dir fnames subdirs =>
      List.length (filter keep fnames)
      + list_sum (map (fun e => if keep (fst e)
                                then countable_files (snd e) else 0)
                      subdirs)
  end.

(** The sum of the counts of a counter dictionary. *)
Definition sum_counts (d : list (string * nat)) : nat := list_sum (map snd d).

(** The seven pattern types and the nine categories. *)
Definition pattern_types : list string :=
  ["daily_note"; "weekly_note"; "zettelkasten"; "timestamp";
   "numbered_prefix"; "uuid"; "standard"].

Definition category_names : list string := map fst categories ++ ["other"].

(** A counter dictionary as [defaultdict(int)] keeps it under [+= 1]: keys
    from [names], each once, each with a positive count. *)
Definition counter_over (names : list string) (d : list (string * nat)) : Prop :=
  NoDup (map fst d)
  /\ Forall (fun kv => In (fst kv) names /\ 1 <= snd kv) d.

(** The statistics count every file once by type and once by pattern. *)
Definition balanced (st : Stats) : Prop :=
  sum_counts (file_types st) = total_files st
  /\ sum_counts (patterns_found st) = total_files st
  /\ counter_over category_names (file_types st)
  /\ counter_over pattern_types (patterns_found st).

(** What every [FolderInfo] of a scan satisfies, given the [depth_max] of
    the scan. *)
Definition folder_info_ok (dm : nat) (info : FolderInfo) : Prop :=
  file_count info = List.length (files info)
  /\ depth info <= dm
  /\ Forall (fun e => exists filename,
                 keep filename = true /\ e = entry_of filename)
            (files info).

(** The folder mapping entry of a yield. *)
Definition yield_entry (y : list string * list string * list string)
  : string * FolderInfo :=
  (folder_key (yield_top y),
   folder_info_of (yield_top y) (snd (fst y)) (snd y)).

Definition yield_recorded (y : list string * list string * list string)
  : bool := recorded (snd (fst y)) (snd y).

(** ** The report *)

(** [sorted(l, key=...)]: a stable sort, written as an insertion sort; [le x y]
    says that the key of [x] is at most the key of [y]. *)
Fixpoint insert_sorted {A : Type} (le : A -> A -> bool) (x : A) (l : list A)
  : list A :=
  match l with
  | [] => [x]
  | y :: l' => if le x y then x :: l else y :: insert_sorted le x l'
  end.

Definition py_sorted {A : Type} (le : A -> A -> bool) (l : list A) : list A :=
  fold_right (insert_sorted le) [] l.

(** [key=lambda x: x[0]] on strings, which Python compares code point by
    code point. *)
Definition by_key {V : Type} (x y : string * V) : bool :=
  String.leb (fst x) (fst y).

(** [key=lambda x: -x[1]] *)
Definition by_count_desc (x y : string * nat) : bool := snd y <=? snd x.

(** [s * n] for a string. *)
Fixpoint str_mul (s : string) (n : nat) : string :=
  match n with
  | O => ""
  | S n' => s +++ str_mul s n'
  end.

(** One line of the tree, the body of the loop of [generate_tree]; the line
    drawing characters and the folder sign are held as their UTF-8 bytes. *)
Definition tree_line (folder_path : string) (info : FolderInfo) : string :=
  let parts := Py.split_on "/" folder_path in
  let indent := str_mul "    " (List.length parts - 1) +++ "├── " in
  let file_summary :=
    if 0 <? file_count info
    then "(" +++ Py.str_of_nat (file_count info) +++ " files)" else "" in
  indent +++ "📁 " +++ last parts "" +++ "/ " +++ file_summary.

(** The list [lines] at the end of [generate_tree]. *)
Definition generate_tree_lines (structure : Structure) : list string :=
  ("📁 " +++ root structure +++ "/")
    :: map (fun kv => tree_line (fst kv) (snd kv))
           (filter (fun kv => negb (String.eqb (fst kv) "/"))
                   (py_sorted by_key (folders structure))).

(** [generate_tree(structure)] *)
Definition generate_tree (structure : Structure) : string :=
  Py.join nl (generate_tree_lines structure).

(** The table [pattern_examples] of [generate_markdown]. *)
Definition pattern_examples : list (string * string) :=
  [("daily_note", "YYYY-MM-DD.md");
   ("weekly_note", "YYYY-Www.md");
   ("zettelkasten", "YYYYMMDDHHmmss.md");
   ("timestamp", "YYYYMMDDHHmm.md");
   ("numbered_prefix", "001 - Title.md");
   ("uuid", "xxxxxxxx-xxxx-xxxx-xxxx-xxxxxxxxxxxx.md");
   ("standard", "[Any title].md")].

(** The rows of the two tables of counts. *)
Definition type_row (kv : string * nat) : string :=
  "| " +++ fst kv +++ " | " +++ Py.str_of_nat (snd kv) +++ " |" +++ nl.

Definition pattern_row (kv : string * nat) : string :=
  let example :=
    match dict_get (fst kv) pattern_examples with
    | Some e => e
    | None => "[Unknown]"
    end in
  "| " +++ fst kv +++ " | " +++ Py.str_of_nat (snd kv) +++ " | `" +++ example
       +++ "` |" +++ nl.

(** The fixed text of the report. *)
Definition report_head (structure : Structure) : string :=
  "# Obsidian Vault Index

> **Privacy Note**: This index shows vault structure only. File names are redacted; actual note content is never accessed.

**Vault**: `" +++ root structure
  +++ "`
**Generated**: " +++ scanned_at structure
  +++ "

---

## Summary Statistics

| Metric | Value |
|--------|-------|
| Total Folders | " +++ Py.str_of_nat (total_folders (stats structure))
  +++ " |
| Total Files | " +++ Py.str_of_nat (total_files (stats structure))
  +++ " |
| Max Depth | " +++ Py.str_of_nat (depth_max (stats structure))
  +++ " levels |

### Files by Type

| Type | Count |
|------|-------|
".

Definition patterns_heading : string :=
  "
### Naming Patterns Detected

| Pattern | Count | Format Example |
|---------|-------|----------------|
".

Definition tree_heading : string :=
  "
---

## Folder Structure

```
".

Definition details_heading : string :=
  "
```

---

## Detailed Folder Contents

".

Definition report_foot : string :=
  "---

## How to Use This Index

This index is designed for AI assistants to understand your vault's organization without accessing private content.

**What's included:**
- Complete folder hierarchy with real folder names
- File counts and types per folder
- Detected naming patterns (e.g., daily notes format)
- Redacted file names showing structure only

**What's NOT included:**
- Actual file names or titles
- File contents
- Links between notes
- Tags or metadata

**For AI tools**: Use this to understand where different types of notes live, how the user organizes their vault, and what naming conventions they use.
".

(** [generate_markdown(structure)] *)
Definition generate_markdown (structure : Structure) : string :=
  let st := stats structure in
  let md := report_head structure in
  let md :=
    fold_left (fun md kv => md +++ type_row kv)
              (py_sorted by_count_desc (file_types st)) md in
  let md := md +++ patterns_heading in
  let md :=
    fold_left (fun md kv => md +++ pattern_row kv)
              (py_sorted by_count_desc (patterns_found st)) md in
  let md := md +++ tree_heading +++ generate_tree structure +++ details_heading in
  let md :=
    fold_left (fun md kv => folder_detail md (fst kv) (snd kv))
              (py_sorted by_key (folders structure)) md in
  md +++ report_foot.

(** [s.count(c)] for one character. *)
Fixpoint count_char (c : ascii) (s : string) : nat :=
  match s with
  | "" => 0
  | String a s' => (if Ascii.eqb a c then 1 else 0) + count_char c s'
  end.

(** The line feed, and a name without it. *)
Definition line_feed : ascii := ascii_of_nat 10.

Definition no_line_feed (n : string) : bool := negb (char_in line_feed n).

(** Every name of a subdirectory in the tree is in the class [q]. *)
Fixpoint all_dir_names (q : string -> bool) (n : Node) : bool :=
  match n with
  | Unlisted => true
  | Dir _ subdirs =>
      forallb (fun e => q (fst e) && all_dir_names q (snd e)) subdirs
  end.

(** The texts of the elements of a list, one after the other. *)
Fixpoint concat_map {A : Type} (f : A -> string) (l : list A) : string :=
  match l with
  | [] => ""
  | x :: l' => f x +++ concat_map f l'
  end.

(** The detail section of one folder, on its own. *)
Definition folder_section (kv : string * FolderInfo) : string :=
  folder_detail "" (fst kv) (snd kv).

(** * Properties *)

(** ** MD5 test vectors (RFC 1321 and [hashlib]) *)

Example md5_empty : MD5.hexdigest "" = "d41d8cd98f00b204e9800998ecf8427e".
Proof. vm_compute. reflexivity. Qed.

Example md5_abc : MD5.hexdigest "abc" = "900150983cd24fb0d6963f7d28e17f72".
Proof. vm_compute. reflexivity. Qed.

Example md5_message_digest :
  MD5.hexdigest "message digest" = "f96b697d7cb7938d525a2f31aaf161d0".
Proof. vm_compute. reflexivity. Qed.

Example md5_two_blocks :
  MD5.hexdigest
    "12345678901234567890123456789012345678901234567890123456789012345678901234567890"
  = "57edf4a22be3c955ac49da2e2107b67a".
Proof. vm_compute. reflexivity. Qed.

Example md5_pad_boundary :
  MD5.hexdigest "aaaaaaaaaaaaaaaaaaaaaaaaaaaaaaaaaaaaaaaaaaaaaaaaaaaaaaaa"
  = "3b0c8ac703f828b04c6c197006d17218".
Proof. vm_compute. reflexivity. Qed.

Example md5_latin1 :
  MD5.hexdigest (String (ascii_of_nat 99) (String (ascii_of_nat 97)
                   (String (ascii_of_nat 102) (String (ascii_of_nat 233) ""))))
  = "07117fe4a1ebd544965dc19573183da2".
Proof. vm_compute. reflexivity. Qed.

(** ** The classifier and the redactor on concrete names *)

Example detect_daily : detect_filename_pattern "2024-01-15.md" = ("daily_note", "YYYY-MM-DD").
Proof. reflexivity. Qed.

Example detect_week : detect_filename_pattern "2024-w07.md" = ("weekly_note", "YYYY-Www").
Proof. reflexivity. Qed.

Example detect_uuid :
  detect_filename_pattern "a1b2c3d4-e5f6-7890-abcd-ef1234567890.png" = ("uuid", "UUID").
Proof. reflexivity. Qed.

Example detect_numbered : detect_filename_pattern "001 - Intro.md" = ("numbered_prefix", "NNN - [Title]").
Proof. reflexivity. Qed.

Example redact_numbered : redact_filename "001 - Intro.md" "numbered_prefix" = "001 - [Redacted Title].md".
Proof. reflexivity. Qed.

Example redact_numbered_digits_in_title :
  redact_filename "12 34 secret.md" "numbered_prefix" = "12 [Redacted Title].md".
Proof. reflexivity. Qed.

Example redact_standard :
  redact_filename "Meeting notes Q3.md" "standard" = "[Note_cbec0b] (~3 words in title).md".
Proof. vm_compute. reflexivity. Qed.

Example redact_empty_stem :
  redact_filename "" "standard" = "[Note_d41d8c] (~0 words in title)".
Proof. vm_compute. reflexivity. Qed.

Example category_png : get_file_type_category "Plan.PNG" = "images".
Proof. reflexivity. Qed.

Example scan_example_vault :
  scan_vault "MyVault" "t0" example_vault =
  mkStructure "MyVault" "t0"
    [("/", mkFolderInfo 0 2 [] 0);
     ("Journal",
      mkFolderInfo 2 0
        [mkFileEntry "2024-01-15.md" "daily_note" "notes" ".md";
         mkFileEntry "2024-01-15.md" "daily_note" "notes" ".md"] 1);
     ("Inbox",
      mkFolderInfo 1 0
        [mkFileEntry "xxxxxxxx-xxxx-xxxx-xxxx-xxxxxxxxxxxx.png" "uuid" "images" ".png"] 1)]
    (mkStats 2 3 [("notes", 2); ("images", 1)] [("daily_note", 2); ("uuid", 1)] 1).
Proof. vm_compute. reflexivity. Qed.

(** ** Strings, paths and character classes *)

Lemma take_drop (n : nat) (s : string) : Py.take n s +++ Py.drop n s = s.
Proof.
  revert s; induction n as [|n IH]; intros [|c s]; simpl; try reflexivity.
  now rewrite IH.
Qed.

Lemma stem_suffix_name (p : string) :
  Pathlib.stem p +++ Pathlib.suffix p = Pathlib.name p.
Proof.
  unfold Pathlib.stem, Pathlib.suffix.
  destruct (Pathlib.suffix_index (Pathlib.name p)) as [i|].
  - apply take_drop.
  - clear; induction (Pathlib.name p) as [|c s IH]; simpl; congruence.
Qed.

Lemma append_assoc (a b c : string) : (a +++ b) +++ c = a +++ b +++ c.
Proof. induction a as [|x a IH]; simpl; congruence. Qed.

Lemma append_nil_r (a : string) : a +++ "" = a.
Proof. induction a as [|x a IH]; simpl; congruence. Qed.

Lemma char_in_app (c : ascii) (a b : string) :
  char_in c (a +++ b) = char_in c a || char_in c b.
Proof.
  induction a as [|x a IH]; simpl; [reflexivity|].
  now rewrite IH, orb_assoc.
Qed.

Lemma prefix_char_in (t s : string) (c : ascii) :
  prefix t s = true -> char_in c t = true -> char_in c s = true.
Proof.
  revert s; induction t as [|x t IH]; intros s Hp Hc; simpl in *; [discriminate|].
  destruct s as [|y s]; simpl in Hp; [discriminate|].
  destruct (ascii_dec x y) as [->|]; [|discriminate].
  simpl. apply orb_true_iff in Hc as [Hc|Hc]; [now rewrite Hc|].
  rewrite (IH s Hp Hc). apply orb_true_r.
Qed.

Lemma contains_cons (t : string) (y : ascii) (s : string) :
  Py.contains t (String y s) = prefix t (String y s) || Py.contains t s.
Proof. reflexivity. Qed.

Lemma contains_nil (t : string) : Py.contains t "" = prefix t "".
Proof. simpl. apply orb_false_r. Qed.

(** A substring brings all its characters along. *)
Lemma contains_char_in (t s : string) (c : ascii) :
  Py.contains t s = true -> char_in c t = true -> char_in c s = true.
Proof.
  induction s as [|y s IH]; intros Hs Hc.
  - rewrite contains_nil in Hs. eapply prefix_char_in; eauto.
  - rewrite contains_cons in Hs. apply orb_true_iff in Hs as [Hs|Hs].
    + eapply prefix_char_in; eauto.
    + simpl. rewrite (IH Hs Hc). apply orb_true_r.
Qed.

Lemma all_in_app (p : ascii -> bool) (a b : string) :
  all_in p (a +++ b) = all_in p a && all_in p b.
Proof.
  induction a as [|x a IH]; simpl; [reflexivity|].
  now rewrite IH, andb_assoc.
Qed.

Lemma all_in_char_in (p : ascii -> bool) (s : string) (c : ascii) :
  all_in p s = true -> char_in c s = true -> p c = true.
Proof.
  induction s as [|x s IH]; simpl; [discriminate|].
  intros [Hx Hs]%andb_true_iff [Hc|Hc]%orb_true_iff; [|auto].
  apply Ascii.eqb_eq in Hc. congruence.
Qed.

Lemma all_in_take (p : ascii -> bool) (n : nat) (s : string) :
  all_in p s = true -> all_in p (Py.take n s) = true.
Proof.
  revert s; induction n as [|n IH]; intros [|c s]; simpl; auto.
  intros [Hc Hs]%andb_true_iff. now rewrite Hc, IH.
Qed.

Lemma hex_ci_not_hyphen (c : ascii) :
  Re.is_hex_ci c = true -> Re.is_char "-" c = false.
Proof. each_char c. Qed.

Lemma hex_ci_not_dot (c : ascii) :
  Re.is_hex_ci c = true -> Re.is_char "." c = false.
Proof. each_char c. Qed.

(** ** The redactor: fall-through, and the encoding of the stem *)

(** On file names of code points below 256, a pattern type that has no
    branch of its own gets the hash-based placeholder of the standard path,
    and so does a [numbered_prefix] call on a stem in which no numbered
    prefix is found. *)
Lemma redact_filename_falls_through (filename pattern_type : string) :
  (Py.mem pattern_type branch_types = false ->
   redact_filename filename pattern_type
   = standard_placeholder (Pathlib.stem filename) (Pathlib.suffix filename))
  /\ (pattern_type = "numbered_prefix" ->
      Re.match_numbered_prefix (Pathlib.stem filename) = None ->
      redact_filename filename pattern_type
      = standard_placeholder (Pathlib.stem filename) (Pathlib.suffix filename)).
Proof.
  split.
  - intros H. unfold Py.mem, branch_types in H. simpl in H.
    repeat (apply orb_false_iff in H as [? H]).
    unfold redact_filename.
    repeat match goal with E : String.eqb _ _ = false |- _ => rewrite E; clear E end.
    reflexivity.
  - intros -> H. unfold redact_filename. simpl. now rewrite H.
Qed.

Example redact_filename_unknown_type :
  redact_filename "Ideas.md" "journal" = standard_placeholder "Ideas" ".md"
  /\ redact_filename "Ideas.md" "numbered_prefix" = standard_placeholder "Ideas" ".md".
Proof. split; reflexivity. Qed.

Lemma utf8_char_encode_code_point (c : ascii) :
  Utf8.encode_code_point (Z.of_nat (nat_of_ascii c)) = Some (MD5.utf8_char c).
Proof. destruct c as [[] [] [] [] [] [] [] []]; reflexivity. Qed.

(** On code points below 256 the encoding does not fail and is the one the
    hash of the standard path is computed from. *)
Lemma encode_code_points (s : string) :
  Utf8.encode (code_points s) = Some (MD5.encode s).
Proof.
  induction s as [|c s IH]; [reflexivity|].
  cbn [code_points Utf8.encode MD5.encode].
  now rewrite utf8_char_encode_code_point, IH.
Qed.

(** C10.  The standard path of [redact_filename], which every pattern type
    without a branch of its own and every [numbered_prefix] call without a
    prefix match reach, begins by encoding the stem.  On the stem of a file
    name that is not valid UTF-8 the encoding raises, and no string is
    returned: there the function is not total.  On every stem of code points
    below 256 the encoding succeeds and the short hash is the one of the
    placeholder. *)
Theorem standard_path_raises_on_surrogate :
  Utf8.encode undecodable_stem = None
  /\ short_hash undecodable_stem = None
  /\ (forall name : string,
         short_hash (code_points name) = Some (Py.take 6 (MD5.hexdigest name))).
Proof.
  split; [reflexivity|]. split; [reflexivity|].
  intros name. unfold short_hash, MD5.hexdigest.
  now rewrite encode_code_points.
Qed.

Example short_hash_agrees :
  short_hash (code_points "Note") = Some "3b0649".
Proof. vm_compute. reflexivity. Qed.

Example utf8_three_and_four_bytes :
  Utf8.encode [0x20ac; 0x1f4c1]%Z
  = Some [0xe2; 0x82; 0xac; 0xf0; 0x9f; 0x93; 0x81]%Z.
Proof. reflexivity. Qed.

(** ** The classifier on stems of UUID shape *)

Lemma hex_ci_not_sep (c : ascii) : Re.is_hex_ci c = true -> Re.is_sep c = false.
Proof. each_char c. Qed.

Lemma hyphen_not_digit : Py.is_digit "-" = false.
Proof. reflexivity. Qed.

Lemma hyphen_is_sep : Re.is_sep "-" = true.
Proof. reflexivity. Qed.

Lemma is_char_eq (a c : ascii) : Re.is_char a c = true -> c = a.
Proof. apply Ascii.eqb_eq. Qed.

(** A file name that the classifier calls [numbered_prefix] although its
    stem has the UUID shape: the eight characters of the first group are
    decimal digits, so the rule for numbered prefixes, which comes first,
    matches. *)
Lemma uuid_of_digits_is_numbered_prefix :
  Re.match_exact Re.re_uuid
    (Pathlib.stem "12345678-1234-1234-1234-123456789abc.md") = true
  /\ fst (detect_filename_pattern "12345678-1234-1234-1234-123456789abc.md")
     <> "uuid"
  /\ detect_filename_pattern "12345678-1234-1234-1234-123456789abc.md"
     = ("numbered_prefix", "NNN - [Title]").
Proof.
  split; [reflexivity|]. split; [|reflexivity].
  vm_compute. discriminate.
Qed.

Section UuidShape.

Local Opaque Py.is_digit Re.is_hex_ci Re.is_sep Re.is_char Re.is_w_ci.

Lemma detect_on_uuid_stem (filename : string) :
  Re.match_exact Re.re_uuid (Pathlib.stem filename) = true ->
  detect_filename_pattern filename
  = if all_in Py.is_digit (Py.take 8 (Pathlib.stem filename))
    then ("numbered_prefix", "NNN - [Title]")
    else ("uuid", "UUID").
Proof.
  unfold detect_filename_pattern.
  generalize (Pathlib.stem filename) as s. intros s Hu.
  rewrite Hu.
  unfold Re.match_exact in Hu.
  destruct (Re.consume Re.re_uuid s) as [rest|] eqn:E; [|discriminate].
  clear Hu. unfold Re.re_uuid, Re.hexes, Re.lit in E. simpl in E.
  repeat (destruct s as [|?c s]; [discriminate|];
          match type of E with
          | (if ?b then _ else _) = _ => destruct b eqn:?; [|discriminate]
          end).
  clear E.
  repeat match goal with
         | H : Re.is_char _ _ = true |- _ => apply is_char_eq in H; subst
         end.
  unfold Re.match_exact, Re.match_numbered_prefix, Re.re_date_ymd_hyphen,
    Re.re_date_ymd_dot, Re.re_date_mdy, Re.re_week, Re.digits, Re.lit.
  repeat match goal with
         | H : Re.is_hex_ci ?c = true |- _ =>
             pose proof (hex_ci_not_hyphen c H);
             pose proof (hex_ci_not_dot c H);
             pose proof (hex_ci_not_sep c H); clear H
         end.
  simpl. rewrite ?hyphen_not_digit, ?hyphen_is_sep. simpl.
  repeat match goal with
         | |- context [Py.is_digit ?c] =>
             is_var c; destruct (Py.is_digit c) eqn:?; simpl;
             rewrite ?hyphen_not_digit, ?hyphen_is_sep; simpl
         end;
    repeat match goal with
           | H : Re.is_char _ _ = false |- _ => rewrite H; simpl
           | H : Re.is_sep _ = false |- _ => rewrite H; simpl
           end;
    rewrite ?hyphen_not_digit, ?hyphen_is_sep; simpl;
    repeat match goal with
           | H : Re.is_sep _ = false |- _ => rewrite H; simpl
           end;
    reflexivity.
Qed.

End UuidShape.

(** C2, as the code has it.  On a file name whose stem has the UUID shape
    the classifier returns [uuid], unless the first group consists of decimal
    digits only: then the earlier rule for numbered prefixes decides and the
    result is [numbered_prefix].  [redact_filename] with the type [uuid]
    returns the fixed masked literal followed by the extension. *)
Theorem uuid_classified_and_redacted (filename : string) :
  Re.match_exact Re.re_uuid (Pathlib.stem filename) = true ->
  (all_in Py.is_digit (Py.take 8 (Pathlib.stem filename)) = false ->
   detect_filename_pattern filename = ("uuid", "UUID"))
  /\ (all_in Py.is_digit (Py.take 8 (Pathlib.stem filename)) = true ->
      detect_filename_pattern filename = ("numbered_prefix", "NNN - [Title]"))
  /\ redact_filename filename "uuid"
     = "xxxxxxxx-xxxx-xxxx-xxxx-xxxxxxxxxxxx" +++ Pathlib.suffix filename.
Proof.
  intros Hu. pose proof (detect_on_uuid_stem filename Hu) as Hd.
  split; [|split].
  - intros Hf. now rewrite Hf in Hd.
  - intros Ht. now rewrite Ht in Hd.
  - reflexivity.
Qed.

Lemma uuid_classified_and_redacted_witness :
  detect_filename_pattern "a1b2c3d4-e5f6-7890-abcd-ef1234567890.png" = ("uuid", "UUID")
  /\ redact_filename "a1b2c3d4-e5f6-7890-abcd-ef1234567890.png" "uuid"
     = "xxxxxxxx-xxxx-xxxx-xxxx-xxxxxxxxxxxx.png".
Proof.
  pose proof (uuid_classified_and_redacted
                "a1b2c3d4-e5f6-7890-abcd-ef1234567890.png" eq_refl) as [H1 [_ H3]].
  split; [exact (H1 eq_refl) | exact H3].
Defined.

(** ** What a redacted name is made of *)

Lemma span_spec (p : ascii -> bool) (s a b : string) :
  Re.span p s = (a, b) -> s = a +++ b /\ all_in p a = true.
Proof.
  revert a b; induction s as [|c s IH]; intros a b H; simpl in H.
  - inversion H; subst. auto.
  - destruct (p c) eqn:Hc.
    + destruct (Re.span p s) as [a' b'] eqn:E. inversion H; subst.
      destruct (IH a' b eq_refl) as [-> Ha]. simpl. now rewrite Hc, Ha.
    + inversion H; subst. auto.
Qed.

(** What follows the longest prefix in a class does not begin in it. *)
Lemma span_rest (p : ascii -> bool) (s a b : string) :
  Re.span p s = (a, b) -> starts_outside p b = true.
Proof.
  revert a b; induction s as [|c s IH]; intros a b H; simpl in H.
  - inversion H; subst. reflexivity.
  - destruct (p c) eqn:Hc.
    + destruct (Re.span p s) as [a' b'] eqn:E. inversion H; subst.
      exact (IH a' b eq_refl).
    + inversion H; subst. simpl. now rewrite Hc.
Qed.

(** Group 1 of the numbered-prefix match: all the leading digits and all
    the separators after them. *)
Lemma numbered_prefix_spec (name prefix : string) :
  Re.match_numbered_prefix name = Some prefix ->
  exists ds seps title,
    prefix = ds +++ seps /\ numbered_split name ds seps title.
Proof.
  unfold Re.match_numbered_prefix.
  destruct (Re.span Py.is_digit name) as [ds rest] eqn:E1.
  destruct (Re.span Re.is_sep rest) as [seps title] eqn:E2.
  destruct (String.eqb ds "") eqn:Ed; [discriminate|].
  destruct (String.eqb seps "") eqn:Es; [discriminate|].
  cbn [orb]. intros H; inversion H; subst; clear H.
  pose proof (span_rest _ _ _ _ E1) as Hr1.
  pose proof (span_rest _ _ _ _ E2) as Hr2.
  apply span_spec in E1 as [-> Hd]. apply span_spec in E2 as [-> Hs].
  exists ds, seps, title. split; [reflexivity|].
  apply String.eqb_neq in Ed, Es.
  repeat split; auto.
  destruct seps as [|c seps]; [congruence|]. exact Hr1.
Qed.

(** A stem is split in one way only. *)
Lemma numbered_split_unique (name ds seps title ds' seps' title' : string) :
  numbered_split name ds seps title -> numbered_split name ds' seps' title' ->
  ds = ds' /\ seps = seps' /\ title = title'.
Proof.
  assert (Hrun : forall (p : ascii -> bool) a b a' b',
             a +++ b = a' +++ b' ->
             all_in p a = true -> starts_outside p b = true ->
             all_in p a' = true -> starts_outside p b' = true ->
             a = a' /\ b = b').
  { intros p a. induction a as [|c a IH]; intros b a' b' E Ha Hb Ha' Hb'.
    - destruct a' as [|c' a']; [auto|]. simpl in E. subst b.
      simpl in Hb, Ha'. apply andb_true_iff in Ha' as [Hc _].
      rewrite Hc in Hb. discriminate.
    - destruct a' as [|c' a'].
      + simpl in E. subst b'. simpl in Hb', Ha.
        apply andb_true_iff in Ha as [Hc _]. rewrite Hc in Hb'. discriminate.
      + simpl in E. injection E as -> E. simpl in Ha, Ha'.
        apply andb_true_iff in Ha as [_ Ha].
        apply andb_true_iff in Ha' as [_ Ha'].
        destruct (IH b a' b' E Ha Hb Ha' Hb') as [-> ->]. auto. }
  intros (E & _ & Hd & Hn & Hs & Ho & Ht) (E' & _ & Hd' & Hn' & Hs' & Ho' & Ht').
  rewrite E in E'.
  assert (Hos : forall x y, x <> "" -> starts_outside Py.is_digit x = true ->
                            starts_outside Py.is_digit (x +++ y) = true).
  { intros [|c x] y Hx H; [congruence|exact H]. }
  destruct (Hrun Py.is_digit ds (seps +++ title) ds' (seps' +++ title') E' Hd
              (Hos _ _ Hn Ho) Hd' (Hos _ _ Hn' Ho')) as [-> E2].
  destruct (Hrun Re.is_sep seps title seps' title' E2 Hs Ht Hs' Ht') as [-> ->].
  auto.
Qed.

Lemma hex_all_lower_hex (bs : list Z) : all_in is_lower_hex (MD5.hex bs) = true.
Proof.
  assert (Hd : forall n, is_lower_hex (MD5.hex_digit n) = true).
  { intros n. unfold MD5.hex_digit. generalize (Z.to_nat n) as k; intro k.
    do 16 (destruct k as [|k]; [reflexivity|]). destruct k; reflexivity. }
  induction bs as [|b bs IH]; [reflexivity|].
  cbn [MD5.hex MD5.hex_byte String.append all_in]. now rewrite !Hd, IH.
Qed.

Lemma hex_length (bs : list Z) : String.length (MD5.hex bs) = 2 * List.length bs.
Proof. induction bs as [|b bs IH]; [reflexivity|]. cbn [MD5.hex MD5.hex_byte String.append String.length List.length]. rewrite IH. lia. Qed.

Lemma bytes_le_length (n : nat) (x : Z) : List.length (MD5.bytes_le n x) = n.
Proof. revert x; induction n as [|n IH]; intros x; simpl; [reflexivity|]. now rewrite IH. Qed.

Lemma hexdigest_length (s : string) : String.length (MD5.hexdigest s) = 32.
Proof.
  unfold MD5.hexdigest, MD5.digest. rewrite hex_length.
  destruct (MD5.blocks _ _ _) as [[[a b] c] d].
  rewrite !length_app, !bytes_le_length. reflexivity.
Qed.

Lemma take_length (n : nat) (s : string) :
  String.length (Py.take n s) = Nat.min n (String.length s).
Proof. revert s; induction n as [|n IH]; intros [|c s]; simpl; auto. Qed.

(** The short hash: six lower-case hexadecimal digits. *)
Lemma short_hash_shape (name : string) :
  String.length (Py.take 6 (MD5.hexdigest name)) = 6
  /\ all_in is_lower_hex (Py.take 6 (MD5.hexdigest name)) = true.
Proof.
  split.
  - rewrite take_length, hexdigest_length. reflexivity.
  - apply all_in_take, hex_all_lower_hex.
Qed.

Lemma str_of_nat_digits (n : nat) : all_in Py.is_digit (Py.str_of_nat n) = true.
Proof.
  unfold Py.str_of_nat, NilZero.string_of_uint.
  assert (H : forall u, all_in Py.is_digit (NilEmpty.string_of_uint u) = true).
  { induction u; simpl; auto. }
  destruct (Nat.to_uint n); try apply H; reflexivity.
Qed.

Lemma lower_hex_in_alphabet (c : ascii) :
  is_lower_hex c = true -> char_in c placeholder_alphabet = true.
Proof. each_char c. Qed.

Lemma digit_in_alphabet (c : ascii) :
  Py.is_digit c = true -> char_in c placeholder_alphabet = true.
Proof. each_char c. Qed.

(** Every character of the hash-based placeholder is a character of the
    placeholder alphabet or of the extension. *)
Lemma standard_placeholder_chars (name ext : string) (c : ascii) :
  char_in c (standard_placeholder name ext) = true ->
  char_in c placeholder_alphabet = true \/ char_in c ext = true.
Proof.
  unfold standard_placeholder. rewrite !char_in_app.
  intros H. repeat apply orb_true_iff in H as [H|H]; auto; left;
    first [ solve [ apply lower_hex_in_alphabet;
                    exact (all_in_char_in _ _ _ (proj2 (short_hash_shape name)) H) ]
          | solve [ apply digit_in_alphabet;
                    exact (all_in_char_in _ _ _ (str_of_nat_digits _) H) ]
          | revert H; each_char c ].
Qed.

(** The classifier returns one of the seven pattern types. *)
Lemma detect_cases (filename : string) :
  In (fst (detect_filename_pattern filename))
     ["daily_note"; "weekly_note"; "zettelkasten"; "timestamp";
      "numbered_prefix"; "uuid"; "standard"].
Proof.
  unfold detect_filename_pattern.
  repeat match goal with
         | |- context [if ?b then _ else _] => destruct b
         end; simpl; auto 10.
Qed.

Lemma detect_numbered_prefix (filename : string) :
  fst (detect_filename_pattern filename) = "numbered_prefix" ->
  exists prefix, Re.match_numbered_prefix (Pathlib.stem filename) = Some prefix.
Proof.
  unfold detect_filename_pattern.
  destruct (Re.match_numbered_prefix (Pathlib.stem filename)) as [prefix|];
    [intros _; now exists prefix|].
  repeat match goal with
         | |- context [if ?b then _ else _] => destruct b
         end; simpl; discriminate.
Qed.

(** A file name classified as standard whose redacted name contains a token
    of its stem: the stem [Note] is written in the placeholder itself.  A
    daily note with the date of the fixed body is redacted to its own name. *)
Lemma standard_placeholder_repeats_token :
  fst (detect_filename_pattern "Note.md") = "standard"
  /\ redact_filename "Note.md" "standard" = "[Note_3b0649] (~1 words in title).md"
  /\ ~ no_token_leak "Note.md" (redact_filename "Note.md" "standard")
  /\ fst (detect_filename_pattern "2024-01-15.md") = "daily_note"
  /\ Py.contains (Pathlib.stem "2024-01-15.md")
                 (redact_filename "2024-01-15.md" "daily_note") = true.
Proof.
  split; [reflexivity|]. split; [vm_compute; reflexivity|].
  split; [|split; reflexivity].
  intros H. specialize (H "Note"). 
  assert (E : Py.contains "Note" (redact_filename "Note.md" "standard") = true)
    by (vm_compute; reflexivity).
  rewrite H in E; [discriminate| |].
  - vm_compute. auto.
  - vm_compute. lia.
Qed.

(** C1, as the code has it.  The redacted name of a file is built from the
    pattern type alone, apart from three things taken from the stem.  For a
    file classified as [standard] it is [[Note_<h>] (~<n> words in title)]
    and the extension, with [h] the first six hexadecimal digits of the MD5
    digest of the stem and [n] the number of its tokens; so a token of the
    stem that has a character outside the placeholder alphabet and outside
    the extension does not occur in it.  For [numbered_prefix] it is the
    digits that the stem begins with, all of them, and the separators that
    follow these digits, all of them, then [[Redacted Title]] and the
    extension: nothing of what follows the separators in the stem, digits
    or not.  For every other pattern type it is one of the fixed bodies and
    the extension. *)
Theorem redacted_name_content (filename : string) :
  let name := Pathlib.stem filename in
  let ext := Pathlib.suffix filename in
  let pattern_type := fst (detect_filename_pattern filename) in
  let redacted := redact_filename filename pattern_type in
  (pattern_type = "standard" ->
     redacted = "[Note_" +++ Py.take 6 (MD5.hexdigest name) +++ "] (~"
                +++ Py.str_of_nat (List.length (Py.split_ws name))
                +++ " words in title)" +++ ext
     /\ String.length (Py.take 6 (MD5.hexdigest name)) = 6
     /\ all_in is_lower_hex (Py.take 6 (MD5.hexdigest name)) = true
     /\ forall t c, In t (Py.split_ws name) ->
                    char_in c t = true ->
                    char_in c placeholder_alphabet = false ->
                    char_in c ext = false ->
                    Py.contains t redacted = false)
  /\ (pattern_type = "numbered_prefix" ->
      exists ds seps title,
        numbered_split name ds seps title
        /\ redacted = ds +++ seps +++ "[Redacted Title]" +++ ext)
  /\ (pattern_type <> "standard" -> pattern_type <> "numbered_prefix" ->
      exists body, In body fixed_bodies /\ redacted = body +++ ext).
Proof.
  intros name ext pattern_type redacted. subst redacted.
  split; [|split].
  - intros ->.
    assert (E : redact_filename filename "standard" = standard_placeholder name ext)
      by reflexivity.
    split; [exact E|].
    split; [apply short_hash_shape|]. split; [apply short_hash_shape|].
    intros t c _ Hc Ha He.
    destruct (Py.contains t (redact_filename filename "standard")) eqn:Ht; [|reflexivity].
    rewrite E in Ht.
    destruct (standard_placeholder_chars name ext c (contains_char_in _ _ _ Ht Hc));
      congruence.
  - intros Hp. destruct (detect_numbered_prefix filename Hp) as [prefix E].
    destruct (numbered_prefix_spec _ _ E) as (ds & seps & title & -> & Hsplit).
    exists ds, seps, title. split; [exact Hsplit|].
    fold pattern_type. rewrite Hp. unfold redact_filename. simpl.
    fold name. fold name in E. rewrite E. now rewrite append_assoc.
  - intros H1 H2. pose proof (detect_cases filename) as Hc.
    fold pattern_type in Hc. unfold fixed_bodies.
    simpl in Hc.
    destruct Hc as [Hc|[Hc|[Hc|[Hc|[Hc|[Hc|[Hc|[]]]]]]]]; rewrite <- Hc in *;
      try congruence; unfold redact_filename; simpl;
      try (destruct (Py.contains "-" (Pathlib.stem filename))); eauto 10.
Qed.

Lemma redacted_name_content_witness :
  Py.contains "Meeting" (redact_filename "Meeting notes Q3.md" "standard") = false
  /\ (exists ds seps title,
        numbered_split "12 34 secret" ds seps title
        /\ redact_filename "12 34 secret.md" "numbered_prefix"
           = ds +++ seps +++ "[Redacted Title]" +++ ".md")
  /\ (exists body, In body fixed_bodies
                   /\ redact_filename "2024-W07.md" "weekly_note" = body +++ ".md").
Proof.
  split; [|split].
  - refine (proj2 (proj2 (proj2
      (proj1 (redacted_name_content "Meeting notes Q3.md") eq_refl)))
      "Meeting" "M"%char _ eq_refl eq_refl eq_refl).
    simpl. auto.
  - exact (proj1 (proj2 (redacted_name_content "12 34 secret.md")) eq_refl).
  - refine (proj2 (proj2 (redacted_name_content "2024-W07.md")) _ _);
      vm_compute; discriminate.
Defined.

(** ** The walk *)

Lemma mem_In (x : string) (l : list string) : Py.mem x l = true <-> In x l.
Proof.
  unfold Py.mem. rewrite existsb_exists. split.
  - intros [y [Hy E]]. apply String.eqb_eq in E. now subst.
  - intros H. exists x. split; [exact H|apply String.eqb_refl].
Qed.

Lemma mem_filter_keep (d : string) (l : list string) :
  Py.mem d (filter keep l) = keep d && Py.mem d l.
Proof.
  destruct (Py.mem d (filter keep l)) eqn:E.
  - apply mem_In, filter_In in E as [Hin Hk]. rewrite Hk.
    symmetry. now apply mem_In.
  - destruct (keep d) eqn:Hk; [|reflexivity].
    destruct (Py.mem d l) eqn:Hm; [|reflexivity].
    apply mem_In in Hm.
    assert (Py.mem d (filter keep l) = true) by (apply mem_In, filter_In; auto).
    congruence.
Qed.

(** The loop body leaves in [dirs] the names that the skip rule keeps. *)
Lemma visit_dirs (top dirs fnames : list string) (s : Structure) :
  snd (visit top dirs fnames s) = filter keep dirs.
Proof.
  unfold visit.
  destruct (nonempty (filter keep fnames) || nonempty (filter keep dirs));
    [destruct (fold_left add_file _ _)|]; reflexivity.
Qed.

(** The loop body sees the names in [dirs] through the skip rule only. *)
Lemma visit_filtered (top dirs dirs' fnames : list string) (s : Structure) :
  filter keep dirs = filter keep dirs' ->
  visit top dirs fnames s = visit top dirs' fnames s.
Proof. intros H. unfold visit. now rewrite H. Qed.

Lemma fold_left_ext_in {A B : Type} (f g : A -> B -> A) (l : list B) (s : A) :
  (forall s e, In e l -> f s e = g s e) -> fold_left f l s = fold_left g l s.
Proof.
  revert s; induction l as [|e l IH]; intros s H; simpl; [reflexivity|].
  rewrite (H s e (or_introl eq_refl)). apply IH. intros; apply H; now right.
Qed.

Lemma os_walk_dir (fnames : list string) (subdirs : list (string * Node))
    (top : list string) (s : Structure) :
  os_walk visit top (Dir fnames subdirs) s
  = fold_left
      (fun s e => if keep (fst e)
                  then os_walk visit (top ++ [fst e]) (snd e) s else s)
      subdirs (fst (visit top (map fst subdirs) fnames s)).
Proof.
  cbn [os_walk].
  pose proof (visit_dirs top (map fst subdirs) fnames s) as Hd.
  destruct (visit top (map fst subdirs) fnames s) as [s1 dirs]. simpl in Hd.
  subst dirs. cbn [fst].
  apply fold_left_ext_in. intros s' e He. rewrite mem_filter_keep.
  assert (Hm : Py.mem (fst e) (map fst subdirs) = true)
    by (apply mem_In, in_map, He).
  now rewrite Hm, andb_true_r.
Qed.

(** The scan is the loop body run over what the walk yields. *)
Lemma os_walk_yields (n : Node) :
  forall top s, os_walk visit top n s = fold_left visit_yield (yields top n) s.
Proof.
  induction n as [|fnames subdirs IH] using Node_ind; intros top s; [reflexivity|].
  rewrite os_walk_dir. cbn [yields fold_left].
  change (visit_yield s (top, map fst subdirs, fnames))
    with (fst (visit top (map fst subdirs) fnames s)).
  generalize (fst (visit top (map fst subdirs) fnames s)) as s1.
  induction IH as [|e l He _ IHl]; intros s1; [reflexivity|].
  cbn [fold_left flat_map]. rewrite fold_left_app.
  destruct (keep (fst e)); [rewrite He|]; apply IHl.
Qed.

Lemma keep_false_iff (d : string) :
  keep d = false <-> In d SKIP_PATTERNS \/ Py.startswith "." d = true.
Proof.
  unfold keep. rewrite andb_false_iff, !negb_false_iff, mem_In. reflexivity.
Qed.

Lemma fold_left_filter {A B : Type} (f : A -> B -> A) (q : B -> bool)
    (l : list B) (s : A) :
  (forall s e, q e = false -> f s e = s) ->
  fold_left f (filter q l) s = fold_left f l s.
Proof.
  intros H. revert s; induction l as [|e l IH]; intros s; simpl; [reflexivity|].
  destruct (q e) eqn:E; simpl; [apply IH|]. rewrite (H s e E). apply IH.
Qed.

Lemma fold_left_map {A B C : Type} (f : A -> B -> A) (h : C -> B)
    (l : list C) (s : A) :
  fold_left f (map h l) s = fold_left (fun s e => f s (h e)) l s.
Proof. revert s; induction l as [|e l IH]; intros s; simpl; auto. Qed.

Lemma filter_keep_without (d : string) (subdirs : list (string * Node)) :
  keep d = false ->
  filter keep (map fst (filter (fun e => negb (String.eqb (fst e) d)) subdirs))
  = filter keep (map fst subdirs).
Proof.
  intros Hk. induction subdirs as [|e l IH]; [reflexivity|]. simpl.
  destruct (String.eqb (fst e) d) eqn:E; simpl.
  - apply String.eqb_eq in E. rewrite E, Hk. exact IH.
  - now rewrite IH.
Qed.

Lemma remove_at_last (d : string) (fnames : list string)
    (subdirs : list (string * Node)) :
  remove_at [d] (Dir fnames subdirs)
  = Dir fnames (filter (fun e => negb (String.eqb (fst e) d)) subdirs).
Proof. reflexivity. Qed.

Lemma remove_at_cons (d d' : string) (p : list string) (fnames : list string)
    (subdirs : list (string * Node)) :
  remove_at (d :: d' :: p) (Dir fnames subdirs)
  = Dir fnames
        (map (fun e => if String.eqb (fst e) d
                       then (fst e, remove_at (d' :: p) (snd e)) else e)
             subdirs).
Proof. reflexivity. Qed.

(** Deleting a subdirectory that the skip rule excludes changes nothing of
    the walk, wherever it is in the tree. *)
Lemma os_walk_remove_at (p : list string) :
  forall n top s,
    keep (last p "") = false ->
    os_walk visit top (remove_at p n) s = os_walk visit top n s.
Proof.
  induction p as [|d p' IH]; intros n top s Hk; destruct n as [fnames subdirs|];
    try reflexivity.
  destruct p' as [|d' p''].
  - rewrite remove_at_last. simpl in Hk. rewrite !os_walk_dir.
    rewrite (visit_filtered top _ (map fst subdirs));
      [|now apply filter_keep_without].
    apply fold_left_filter. intros s' e He.
    apply negb_false_iff, String.eqb_eq in He. now rewrite He, Hk.
  - rewrite remove_at_cons, !os_walk_dir.
    assert (Hfst : map fst (map (fun e => if String.eqb (fst e) d
                                  then (fst e, remove_at (d' :: p'') (snd e))
                                  else e) subdirs) = map fst subdirs).
    { rewrite map_map. apply map_ext. intros e.
      now destruct (String.eqb (fst e) d). }
    rewrite Hfst, fold_left_map. apply fold_left_ext_in. intros s' e _.
    destruct (String.eqb (fst e) d); [|reflexivity]. cbn [fst snd].
    destruct (keep (fst e)); [|reflexivity].
    apply IH. exact Hk.
Qed.

(** C4.  A subdirectory whose name is in the skip list or begins with a dot
    is pruned before the walk descends: the scan of a vault is the scan of
    the vault without that subdirectory and all that is under it, so none of
    its files is in a [FolderInfo] and it adds nothing to [total_folders] and
    [total_files]. *)
Theorem excluded_subtree_not_scanned (vault_name now : string) (v : Node)
    (parent : list string) (d : string) :
  In d SKIP_PATTERNS \/ Py.startswith "." d = true ->
  scan_vault vault_name now v
  = scan_vault vault_name now (remove_at (parent ++ [d]) v).
Proof.
  intros H. unfold scan_vault. symmetry. apply os_walk_remove_at.
  rewrite last_last. now apply keep_false_iff.
Qed.

Lemma excluded_subtree_not_scanned_witness :
  scan_vault "MyVault" "t0" example_vault
  = scan_vault "MyVault" "t0"
      (Dir []
         [("Journal", Dir ["2024-01-15.md"; "2024-01-16.md"] []);
          ("Inbox", Dir ["a1b2c3d4-e5f6-7890-abcd-ef1234567890.png"] [])]).
Proof.
  refine (excluded_subtree_not_scanned "MyVault" "t0" example_vault [] ".git" _).
  left. simpl. auto.
Defined.

(** ** One turn of the loop *)

Lemma add_file_entry (fl : list FileEntry) (st : Stats) (filename : string) :
  add_file (fl, st) filename
  = (fl ++ [entry_of filename],
     mkStats (total_folders st) (S (total_files st))
             (incr (get_file_type_category filename) (file_types st))
             (incr (fst (detect_filename_pattern filename)) (patterns_found st))
             (depth_max st)).
Proof.
  unfold add_file, entry_of.
  now destruct (detect_filename_pattern filename).
Qed.

Lemma add_files_spec (l : list string) :
  forall fl st,
    fst (fold_left add_file l (fl, st)) = fl ++ map entry_of l
    /\ total_files (snd (fold_left add_file l (fl, st)))
       = total_files st + List.length l
    /\ total_folders (snd (fold_left add_file l (fl, st))) = total_folders st
    /\ depth_max (snd (fold_left add_file l (fl, st))) = depth_max st.
Proof.
  induction l as [|f l IH]; intros fl st.
  - simpl. rewrite app_nil_r. repeat split; lia.
  - cbn [fold_left]. rewrite add_file_entry.
    destruct (IH (fl ++ [entry_of f])
                 (mkStats (total_folders st) (S (total_files st))
                    (incr (get_file_type_category f) (file_types st))
                    (incr (fst (detect_filename_pattern f)) (patterns_found st))
                    (depth_max st))) as (H1 & H2 & H3 & H4).
    rewrite H1, H2, H3, H4. simpl. rewrite <- app_assoc. simpl.
    repeat split; lia.
Qed.

Lemma visit_yield_folders (s : Structure) (top dirs fnames : list string) :
  folders (visit_yield s (top, dirs, fnames))
  = if recorded dirs fnames
    then dict_set (folder_key top) (folder_info_of top dirs fnames) (folders s)
    else folders s.
Proof.
  unfold visit_yield, visit, recorded. cbn [fst snd].
  destruct (nonempty (filter keep fnames) || nonempty (filter keep dirs));
    [|reflexivity].
  match goal with
  | |- context [fold_left add_file ?l (?fl, ?st)] =>
      destruct (add_files_spec l fl st) as (H1 & _);
      destruct (fold_left add_file l (fl, st)) as [fl' st2]
  end.
  simpl in H1. subst fl'. reflexivity.
Qed.

Lemma visit_yield_stats (s : Structure) (top dirs fnames : list string) :
  depth_max (stats (visit_yield s (top, dirs, fnames)))
  = Nat.max (depth_max (stats s)) (folder_depth top)
  /\ total_files (stats (visit_yield s (top, dirs, fnames)))
     = total_files (stats s) + List.length (filter keep fnames).
Proof.
  unfold visit_yield, visit. cbn [fst snd]. fold (folder_depth top).
  destruct (nonempty (filter keep fnames) || nonempty (filter keep dirs)) eqn:E.
  - match goal with
    | |- context [fold_left add_file ?l (?fl, ?st)] =>
        destruct (add_files_spec l fl st) as (_ & H2 & _ & H4);
        destruct (fold_left add_file l (fl, st)) as [fl' st2]
    end.
    simpl in H2, H4.
    destruct (String.eqb _ ""); simpl; auto.
  - apply orb_false_iff in E as [E _].
    destruct (filter keep fnames); [|discriminate]. simpl. split; lia.
Qed.

(** ** Paths and keys *)

Lemma split_on_no_sep (w : string) :
  char_in "/" w = false -> Py.split_on "/" w = [w].
Proof.
  induction w as [|c w IH]; [reflexivity|]. simpl.
  intros [Hc Hw]%orb_false_iff. now rewrite Hc, (IH Hw).
Qed.

Lemma split_on_app_sep (w r : string) :
  char_in "/" w = false ->
  Py.split_on "/" (w +++ String "/" r) = w :: Py.split_on "/" r.
Proof.
  induction w as [|c w IH]; [reflexivity|]. simpl.
  intros [Hc Hw]%orb_false_iff. now rewrite Hc, (IH Hw).
Qed.

(** Splitting a joined path gives its names back. *)
Lemma split_join (l : list string) :
  Forall (fun n => char_in "/" n = false) l -> l <> [] ->
  Py.split_on "/" (Py.join "/" l) = l.
Proof.
  induction 1 as [|n l Hn Hl IH]; [congruence|]. intros _.
  destruct l as [|m l].
  - simpl. now apply split_on_no_sep.
  - change (Py.join "/" (n :: m :: l)) with (n +++ String "/" (Py.join "/" (m :: l))).
    rewrite split_on_app_sep by exact Hn. f_equal. apply IH. discriminate.
Qed.

Lemma valid_path_no_sep (p : list string) :
  valid_path p -> Forall (fun n => char_in "/" n = false) p.
Proof.
  apply Forall_impl. intros n Hv. unfold valid_name in Hv.
  apply andb_true_iff in Hv as [_ Hv]. now apply negb_true_iff in Hv.
Qed.

Lemma valid_path_join (p : list string) :
  valid_path p -> p <> [] ->
  Py.join "/" p <> "." /\ Py.join "/" p <> "" /\ Py.join "/" p <> "/".
Proof.
  intros Hg Hne.
  pose proof (split_join p (valid_path_no_sep p Hg) Hne) as Hs.
  repeat split; intros E; rewrite E in Hs; simpl in Hs; subst p;
    inversion Hg as [|? ? Hv ?]; discriminate.
Qed.

(** On the path of a directory that the walk lists, the key is the joined
    path and the depth is the number of names; the root has the key [/] and
    the depth 0. *)
Lemma folder_key_depth (p : list string) :
  valid_path p -> p <> [] ->
  folder_key p = Py.join "/" p /\ folder_depth p = List.length p.
Proof.
  intros Hg Hne. destruct (valid_path_join p Hg Hne) as (H1 & H2 & _).
  unfold folder_key, folder_depth, relpath.
  destruct p as [|n p]; [congruence|].
  apply String.eqb_neq in H1, H2. rewrite H1, H2.
  split; [reflexivity|].
  now rewrite (split_join _ (valid_path_no_sep _ Hg) Hne).
Qed.

Lemma folder_depth_length (p : list string) :
  valid_path p -> folder_depth p = List.length p.
Proof.
  intros Hg. destruct p as [|n p]; [reflexivity|].
  apply folder_key_depth; [exact Hg|discriminate].
Qed.

Lemma folder_key_inj (p q : list string) :
  valid_path p -> valid_path q -> folder_key p = folder_key q -> p = q.
Proof.
  intros Hp Hq E.
  destruct p as [|a p], q as [|b q]; [reflexivity| | |].
  - destruct (folder_key_depth (b :: q) Hq) as [Hk _]; [discriminate|].
    rewrite Hk in E. destruct (valid_path_join (b :: q) Hq) as (_ & _ & H);
      [discriminate|]. now elim H.
  - destruct (folder_key_depth (a :: p) Hp) as [Hk _]; [discriminate|].
    rewrite Hk in E. destruct (valid_path_join (a :: p) Hp) as (_ & _ & H);
      [discriminate|]. now elim H.
  - destruct (folder_key_depth (a :: p) Hp) as [Hk1 _]; [discriminate|].
    destruct (folder_key_depth (b :: q) Hq) as [Hk2 _]; [discriminate|].
    rewrite Hk1, Hk2 in E.
    rewrite <- (split_join (a :: p)), <- (split_join (b :: q));
      try discriminate; try now apply valid_path_no_sep.
    now rewrite E.
Qed.

(** ** Well-formed trees: what the walk lists and what a path reaches *)

Lemma nodupb_NoDup (l : list string) : nodupb l = true -> NoDup l.
Proof.
  induction l as [|x l IH]; simpl; [constructor|].
  intros [Hx Hl]%andb_true_iff. constructor; [|auto].
  intros Hin. apply mem_In in Hin. rewrite Hin in Hx. discriminate.
Qed.

Lemma well_formed_dir (fnames : list string) (subdirs : list (string * Node)) :
  well_formed (Dir fnames subdirs) = true ->
  NoDup (map fst subdirs)
  /\ forall e, In e subdirs ->
               valid_name (fst e) = true /\ well_formed (snd e) = true.
Proof.
  cbn [well_formed]. intros [Hn Hf]%andb_true_iff. split.
  - now apply nodupb_NoDup.
  - intros e He. rewrite forallb_forall in Hf.
    now apply andb_true_iff, Hf.
Qed.

Lemma dict_get_In {V : Type} (k : string) (v : V) (d : list (string * V)) :
  dict_get k d = Some v -> In (k, v) d.
Proof.
  induction d as [|[k' v'] d IH]; simpl; [discriminate|].
  destruct (String.eqb k' k) eqn:E.
  - apply String.eqb_eq in E. intros H; inversion H; subst. now left.
  - intros H. right. auto.
Qed.

Lemma dict_get_nodup {V : Type} (e : string * V) (d : list (string * V)) :
  NoDup (map fst d) -> In e d -> dict_get (fst e) d = Some (snd e).
Proof.
  induction d as [|[k' v'] d IH]; simpl; [tauto|].
  intros Hn Hin. apply NoDup_cons_iff in Hn as [Hk Hn].
  destruct Hin as [<-|Hin].
  - simpl. now rewrite String.eqb_refl.
  - destruct (String.eqb k' (fst e)) eqn:E; [|auto].
    apply String.eqb_eq in E. subst k'. elim Hk. now apply in_map.
Qed.

(** A path that leads to a node of a well-formed tree is made of valid
    names, and the node is well formed. *)
Lemma locate_valid (q : list string) :
  forall n m, well_formed n = true -> locate n q = Some m ->
              valid_path q /\ well_formed m = true.
Proof.
  induction q as [|d q IH]; intros n m Hwf Hr; simpl in Hr.
  - inversion Hr; subst. split; [constructor|exact Hwf].
  - destruct n as [fnames subdirs|]; [|discriminate].
    destruct (dict_get d subdirs) as [sub|] eqn:Hg; [|discriminate].
    apply dict_get_In in Hg.
    destruct (well_formed_dir _ _ Hwf) as [_ Hall].
    destruct (Hall _ Hg) as [Hv Hsub]. simpl in Hv, Hsub.
    destruct (IH sub m Hsub Hr) as [Hq Hm].
    split; [constructor; auto|exact Hm].
Qed.

(** What the walk reaches is where the path leads. *)
Lemma reach_locate (q : list string) :
  forall n m, reach n q = Some m -> locate n q = Some m.
Proof.
  induction q as [|d q IH]; intros n m Hr; simpl in *; [exact Hr|].
  destruct n as [fnames subdirs|]; [|discriminate].
  destruct (keep d); [|discriminate].
  destruct (dict_get d subdirs) as [sub|]; [auto|discriminate].
Qed.

Lemma reach_valid (q : list string) (n m : Node) :
  well_formed n = true -> reach n q = Some m ->
  valid_path q /\ well_formed m = true.
Proof. intros Hwf Hr. eapply locate_valid; eauto using reach_locate. Qed.

(** Every directory that a path reaches is yielded by the walk. *)
Lemma reach_yields (q : list string) :
  forall n t fnames subdirs,
    reach n q = Some (Dir fnames subdirs) ->
    In (t ++ q, map fst subdirs, fnames) (yields t n).
Proof.
  induction q as [|d q IH]; intros n t fnames subdirs Hr; simpl in Hr.
  - inversion Hr; subst. rewrite app_nil_r. now left.
  - destruct n as [fnames0 subdirs0|]; [|discriminate].
    destruct (keep d) eqn:Hk; [|discriminate].
    destruct (dict_get d subdirs0) as [sub|] eqn:Hg; [|discriminate].
    apply dict_get_In in Hg. cbn [yields]. right.
    apply in_flat_map. exists (d, sub). split; [exact Hg|].
    cbn [fst snd]. rewrite Hk.
    replace (t ++ d :: q) with ((t ++ [d]) ++ q)
      by (now rewrite <- app_assoc).
    now apply IH.
Qed.

(** Every yield of the walk of a well-formed tree is the directory that its
    path reaches. *)
Lemma yields_reach (n : Node) :
  forall t top dirs fnames,
    well_formed n = true ->
    In (top, dirs, fnames) (yields t n) ->
    exists q subdirs,
      top = t ++ q /\ reach n q = Some (Dir fnames subdirs)
      /\ dirs = map fst subdirs.
Proof.
  induction n as [|fnames0 subdirs0 IH] using Node_ind;
    intros t top dirs fnames Hwf Hin; [contradiction|].
  cbn [yields] in Hin. destruct Hin as [E|Hin].
  - inversion E; subst. exists [], subdirs0. rewrite app_nil_r. auto.
  - apply in_flat_map in Hin as [e [He Hy]].
    destruct (keep (fst e)) eqn:Hk; [|contradiction].
    destruct (well_formed_dir _ _ Hwf) as [Hn Hall].
    destruct (Hall e He) as [_ Hsub].
    rewrite Forall_forall in IH.
    destruct (IH e He _ _ _ _ Hsub Hy) as (q & subdirs & -> & Hr & ->).
    exists (fst e :: q), subdirs. split; [now rewrite <- app_assoc|].
    split; [|reflexivity].
    cbn [reach]. now rewrite Hk, (dict_get_nodup e subdirs0 Hn He).
Qed.

Lemma yields_prefix (n : Node) :
  forall t y, In y (yields t n) -> exists q, yield_top y = t ++ q.
Proof.
  induction n as [|fnames subdirs IH] using Node_ind; intros t y Hin;
    [contradiction|].
  cbn [yields] in Hin. destruct Hin as [<-|Hin].
  - exists []. now rewrite app_nil_r.
  - apply in_flat_map in Hin as [e [He Hy]].
    destruct (keep (fst e)); [|contradiction].
    rewrite Forall_forall in IH. destruct (IH e He _ _ Hy) as [q ->].
    exists (fst e :: q). now rewrite <- app_assoc.
Qed.

(** The walk of a well-formed tree lists no directory twice. *)
Lemma yields_nodup (n : Node) :
  forall t, well_formed n = true -> NoDup (map yield_top (yields t n)).
Proof.
  induction n as [|fnames subdirs IH] using Node_ind; intros t Hwf;
    [constructor|].
  cbn [yields map]. destruct (well_formed_dir _ _ Hwf) as [Hn Hall].
  constructor.
  - intros Hin. apply in_map_iff in Hin as [y [Ey Hy]].
    apply in_flat_map in Hy as [e [He Hy]].
    destruct (keep (fst e)); [|contradiction].
    apply yields_prefix in Hy as [q Hq]. rewrite Hq, <- app_assoc in Ey.
    rewrite <- (app_nil_r t) in Ey at 2. apply app_inv_head in Ey. discriminate.
  - clear Hwf. induction subdirs as [|e l IHl]; [constructor|].
    cbn [flat_map]. rewrite map_app.
    inversion IH as [|? ? IHe IHrest]; subst.
    simpl in Hn. apply NoDup_cons_iff in Hn as [Hfresh Hn].
    apply NoDup_app.
    + destruct (keep (fst e)); [|constructor].
      apply IHe, Hall. now left.
    + apply IHl; auto. intros e' He'. apply Hall. now right.
    + intros top H1 H2.
      destruct (keep (fst e)); [|contradiction].
      apply in_map_iff in H1 as [y1 [E1 H1]].
      apply yields_prefix in H1 as [q1 Hq1].
      apply in_map_iff in H2 as [y2 [E2 H2]].
      apply in_flat_map in H2 as [e' [He' H2]].
      destruct (keep (fst e')); [|contradiction].
      apply yields_prefix in H2 as [q2 Hq2].
      rewrite Hq1 in E1. rewrite Hq2, <- E1, <- !app_assoc in E2.
      apply app_inv_head in E2. inversion E2 as [Efst].
      apply Hfresh. rewrite <- Efst. now apply in_map.
Qed.

(** ** The folder mapping and the counters *)

Lemma dict_set_fresh {V : Type} (k : string) (v : V) (d : list (string * V)) :
  ~ In k (map fst d) -> dict_set k v d = d ++ [(k, v)].
Proof.
  induction d as [|[k' v'] d IH]; simpl; [reflexivity|]. intros H.
  destruct (String.eqb k' k) eqn:E.
  - apply String.eqb_eq in E. tauto.
  - rewrite IH; tauto.
Qed.

Lemma dict_set_keys {V : Type} (k k0 : string) (v : V) (d : list (string * V)) :
  In k0 (map fst (dict_set k v d)) -> k0 = k \/ In k0 (map fst d).
Proof.
  induction d as [|[k' v'] d IH]; simpl.
  - intros [<-|[]]. now left.
  - destruct (String.eqb k' k) eqn:E; simpl.
    + intros [<-|H]; auto.
    + intros [<-|H]; auto. destruct (IH H); auto.
Qed.

Lemma sum_len_files_app (a b : list (string * FolderInfo)) :
  sum_len_files (a ++ b) = sum_len_files a + sum_len_files b.
Proof. unfold sum_len_files. now rewrite map_app, list_sum_app. Qed.

Lemma sum_file_count_app (a b : list (string * FolderInfo)) :
  sum_file_count (a ++ b) = sum_file_count a + sum_file_count b.
Proof. unfold sum_file_count. now rewrite map_app, list_sum_app. Qed.

Lemma visit_yield_counted (s : Structure)
    (y : list string * list string * list string) :
  counted s ->
  ~ In (folder_key (yield_top y)) (map fst (folders s)) ->
  counted (visit_yield s y).
Proof.
  destruct y as [[top dirs] fnames]. unfold counted, yield_top. cbn [fst].
  intros [H1 H2] Hfresh.
  destruct (visit_yield_stats s top dirs fnames) as [_ Ht].
  rewrite Ht, visit_yield_folders. unfold recorded.
  destruct (nonempty (filter keep fnames) || nonempty (filter keep dirs)) eqn:E.
  - rewrite dict_set_fresh by exact Hfresh.
    rewrite sum_len_files_app, sum_file_count_app.
    unfold sum_len_files at 2, sum_file_count at 2. simpl.
    rewrite length_map. lia.
  - apply orb_false_iff in E as [E _].
    destruct (filter keep fnames); [|discriminate]. simpl. lia.
Qed.

Lemma visit_yield_keys (s : Structure)
    (y : list string * list string * list string) (k : string) :
  In k (map fst (folders (visit_yield s y))) ->
  In k (map fst (folders s))
  \/ (recorded (snd (fst y)) (snd y) = true /\ folder_key (yield_top y) = k).
Proof.
  destruct y as [[top dirs] fnames]. rewrite visit_yield_folders.
  unfold yield_top. cbn [fst snd].
  destruct (recorded dirs fnames); [|auto].
  intros H. apply dict_set_keys in H as [->|H]; auto.
Qed.

Lemma fold_counted (ys : list (list string * list string * list string)) :
  forall s,
    NoDup (map (fun y => folder_key (yield_top y)) ys) ->
    (forall y, In y ys -> ~ In (folder_key (yield_top y)) (map fst (folders s))) ->
    counted s -> counted (fold_left visit_yield ys s).
Proof.
  induction ys as [|y ys IH]; intros s Hn Hfresh Hc; [exact Hc|].
  cbn [fold_left]. simpl in Hn. apply NoDup_cons_iff in Hn as [Hy Hn].
  apply IH; [exact Hn| |].
  - intros y' Hy' Hin. apply visit_yield_keys in Hin as [Hin|[_ E]].
    + exact (Hfresh y' (or_intror Hy') Hin).
    + apply Hy. rewrite E.
      now apply (in_map (fun y => folder_key (yield_top y))).
  - apply visit_yield_counted; [exact Hc|]. apply Hfresh. now left.
Qed.

Lemma fold_keys (ys : list (list string * list string * list string)) :
  forall s k,
    In k (map fst (folders (fold_left visit_yield ys s))) ->
    In k (map fst (folders s))
    \/ exists y, In y ys /\ recorded (snd (fst y)) (snd y) = true
                 /\ folder_key (yield_top y) = k.
Proof.
  induction ys as [|y ys IH]; intros s k H; [now left|].
  cbn [fold_left] in H. apply IH in H as [H|[y' [Hy' H]]].
  - apply visit_yield_keys in H as [H|H]; [now left|].
    right. exists y. split; [now left|exact H].
  - right. exists y'. split; [now right|exact H].
Qed.

(** The paths of the yields of a well-formed tree are valid. *)
Lemma yields_valid (v : Node) (y : list string * list string * list string) :
  well_formed v = true -> In y (yields [] v) -> valid_path (yield_top y).
Proof.
  intros Hwf Hy. destruct y as [[top dirs] fnames].
  destruct (yields_reach v [] top dirs fnames Hwf Hy) as (q & sd & -> & Hr & _).
  exact (proj1 (reach_valid q v _ Hwf Hr)).
Qed.

(** In a well-formed tree no two directories listed have the same key. *)
Lemma yields_keys_nodup (v : Node) :
  well_formed v = true ->
  NoDup (map (fun y => folder_key (yield_top y)) (yields [] v)).
Proof.
  intros Hwf. rewrite <- (map_map yield_top folder_key).
  apply NoDup_map_NoDup_ForallPairs; [|now apply yields_nodup].
  intros p q Hp Hq. apply in_map_iff in Hp as [y1 [<- H1]].
  apply in_map_iff in Hq as [y2 [<- H2]].
  apply folder_key_inj; eapply yields_valid; eauto.
Qed.

(** C3.  After the scan of a vault, [total_files] is the sum of the lengths
    of the [files] lists of the folder mapping, and the sum of its
    [file_count] values. *)
Theorem total_files_is_sum (vault_name now : string) (v : Node) :
  well_formed v = true ->
  total_files (stats (scan_vault vault_name now v))
  = sum_len_files (folders (scan_vault vault_name now v))
  /\ total_files (stats (scan_vault vault_name now v))
     = sum_file_count (folders (scan_vault vault_name now v)).
Proof.
  intros Hwf. unfold scan_vault. rewrite os_walk_yields.
  apply fold_counted.
  - now apply yields_keys_nodup.
  - intros y _ H. exact H.
  - split; reflexivity.
Qed.

Lemma total_files_is_sum_witness :
  total_files (stats (scan_vault "MyVault" "t0" example_vault))
  = sum_len_files (folders (scan_vault "MyVault" "t0" example_vault))
  /\ total_files (stats (scan_vault "MyVault" "t0" example_vault))
     = sum_file_count (folders (scan_vault "MyVault" "t0" example_vault)).
Proof. exact (total_files_is_sum "MyVault" "t0" example_vault eq_refl). Defined.

(** C8.  A directory of the vault with no countable file and no subdirectory
    that the skip rule keeps is not a key of the folder mapping. *)
Theorem empty_directory_not_recorded (vault_name now : string) (v : Node)
    (p fnames : list string) (subdirs : list (string * Node)) :
  well_formed v = true ->
  locate v p = Some (Dir fnames subdirs) ->
  filter keep fnames = [] ->
  filter keep (map fst subdirs) = [] ->
  ~ In (folder_key p) (map fst (folders (scan_vault vault_name now v))).
Proof.
  intros Hwf Hl Hf Hd Hin. unfold scan_vault in Hin.
  rewrite os_walk_yields in Hin.
  apply fold_keys in Hin as [[]|[[[top dirs] fnames'] (Hy & Hrec & Hk)]].
  destruct (yields_reach v [] top dirs fnames' Hwf Hy) as (q & sd & -> & Hr & ->).
  unfold yield_top in Hk. cbn [fst snd app] in Hk, Hrec.
  assert (q = p) as ->.
  { apply folder_key_inj; [| |exact Hk].
    - exact (proj1 (reach_valid q v _ Hwf Hr)).
    - exact (proj1 (locate_valid p v _ Hwf Hl)). }
  apply reach_locate in Hr. rewrite Hl in Hr. inversion Hr; subst.
  unfold recorded in Hrec. now rewrite Hf, Hd in Hrec.
Qed.

Lemma empty_directory_not_recorded_witness :
  ~ In "Archive" (map fst (folders (scan_vault "V" "t0" vault_with_empty_dirs)))
  /\ ~ In "Notes/Drafts"
          (map fst (folders (scan_vault "V" "t0" vault_with_empty_dirs))).
Proof.
  split.
  - exact (empty_directory_not_recorded "V" "t0" vault_with_empty_dirs
             ["Archive"] [".hidden"] [(".cache", Dir ["x.md"] [])]
             eq_refl eq_refl eq_refl eq_refl).
  - exact (empty_directory_not_recorded "V" "t0" vault_with_empty_dirs
             ["Notes"; "Drafts"] [] [] eq_refl eq_refl eq_refl eq_refl).
Defined.

(** ** The depth statistic *)

Lemma fold_depth_max (ys : list (list string * list string * list string)) :
  forall s,
    depth_max (stats (fold_left visit_yield ys s))
    = Nat.max (depth_max (stats s))
              (list_max (map (fun y => folder_depth (yield_top y)) ys)).
Proof.
  induction ys as [|[[top dirs] fnames] ys IH]; intros s.
  - simpl. lia.
  - cbn [fold_left map list_max fold_right]. rewrite IH.
    rewrite (proj1 (visit_yield_stats s top dirs fnames)).
    unfold yield_top at 2. cbn [fst]. fold (list_max (map (fun y => folder_depth (yield_top y)) ys)).
    lia.
Qed.

Lemma list_max_attained (l : list nat) : list_max l = 0 \/ In (list_max l) l.
Proof.
  induction l as [|x l IH]; [now left|].
  change (list_max (x :: l)) with (Nat.max x (list_max l)).
  destruct (Nat.max_spec x (list_max l)) as [[Hlt E]|[Hle E]]; rewrite E.
  - destruct IH as [IH|IH]; [lia|]. right. now right.
  - right. now left.
Qed.

(** A vault whose countable files are all at the root and whose
    [depth_max] is 1: the empty directory beside them is walked too. *)
Lemma depth_max_counts_empty_directories :
  file_dir_depths 0 vault_with_empty_subdir = [0]
  /\ spec_depth_max vault_with_empty_subdir = 0
  /\ depth_max (stats (scan_vault "V" "t0" vault_with_empty_subdir)) = 1
  /\ depth_max (stats (scan_vault "V" "t0" vault_with_empty_subdir))
     <> spec_depth_max vault_with_empty_subdir.
Proof. repeat split; try reflexivity. vm_compute. discriminate. Qed.

(** C5, as the code has it.  After the scan of a vault, [depth_max] is the
    greatest depth of a directory that the walk lists, with or without
    countable files, where the depth of a directory is the number of names
    on its path from the vault root; it is 0 when the walk lists the root
    only, or nothing. *)
Theorem depth_max_of_listed_directories (vault_name now : string) (v : Node) :
  well_formed v = true ->
  (forall p fnames subdirs,
      reach v p = Some (Dir fnames subdirs) ->
      List.length p <= depth_max (stats (scan_vault vault_name now v)))
  /\ (depth_max (stats (scan_vault vault_name now v)) = 0
      \/ exists p fnames subdirs,
           reach v p = Some (Dir fnames subdirs)
           /\ List.length p = depth_max (stats (scan_vault vault_name now v))).
Proof.
  intros Hwf. unfold scan_vault. rewrite os_walk_yields, fold_depth_max.
  cbn [stats depth_max]. rewrite Nat.max_0_l.
  set (ds := map (fun y => folder_depth (yield_top y)) (yields [] v)).
  split.
  - intros p fnames subdirs Hr.
    pose proof (reach_yields p v [] fnames subdirs Hr) as Hy. cbn [app] in Hy.
    assert (Hin : In (List.length p) ds).
    { rewrite <- (folder_depth_length p) by exact (proj1 (reach_valid p v _ Hwf Hr)).
      exact (in_map (fun y => folder_depth (yield_top y)) _ _ Hy). }
    assert (Hall : Forall (fun k => k <= list_max ds) ds)
      by now apply list_max_le.
    rewrite Forall_forall in Hall. now apply Hall.
  - destruct (list_max_attained ds) as [H0|Hin]; [now left|]. right.
    apply in_map_iff in Hin as [[[top dirs] fnames] [E Hy]].
    destruct (yields_reach v [] top dirs fnames Hwf Hy) as (q & sd & -> & Hr & _).
    exists q, fnames, sd. split; [exact Hr|].
    rewrite <- E. unfold yield_top. cbn [fst app]. symmetry.
    apply folder_depth_length. exact (proj1 (reach_valid q v _ Hwf Hr)).
Qed.

Lemma depth_max_of_listed_directories_witness :
  3 <= depth_max (stats (scan_vault "V" "t0" deep_vault))
  /\ (depth_max (stats (scan_vault "V" "t0" deep_vault)) = 0
      \/ exists p fnames subdirs,
           reach deep_vault p = Some (Dir fnames subdirs)
           /\ List.length p = depth_max (stats (scan_vault "V" "t0" deep_vault))).
Proof.
  destruct (depth_max_of_listed_directories "V" "t0" deep_vault eq_refl)
    as [Hle Hex].
  split; [|exact Hex].
  exact (Hle ["Projects"; "2024"; "Q3"] [] [] eq_refl).
Defined.

(** ** Extensions *)

Lemma redact_filename_ends_with_suffix (filename pattern_type : string) :
  exists body,
    redact_filename filename pattern_type = body +++ Pathlib.suffix filename.
Proof.
  unfold redact_filename, standard_placeholder.
  repeat match goal with
         | |- context [if ?b then _ else _] => destruct b
         | |- context [match ?o with Some _ => _ | None => _ end] => destruct o
         end;
    first
      [ eexists; reflexivity
      | eexists; symmetry; apply append_assoc
      | exists ("[Note_" +++ Py.take 6 (MD5.hexdigest (Pathlib.stem filename))
                +++ "] (~"
                +++ Py.str_of_nat (List.length (Py.split_ws (Pathlib.stem filename)))
                +++ " words in title)");
        now rewrite !append_assoc ].
Qed.

Lemma entry_of_built_from (filename : string) :
  built_from (entry_of filename) filename.
Proof.
  unfold built_from, entry_of. cbn [extension redacted_name pattern].
  split; [reflexivity|]. split; [reflexivity|]. split; [reflexivity|].
  apply redact_filename_ends_with_suffix.
Qed.

Lemma entries_built_from (l : list string) :
  Forall2 built_from (map entry_of l) l.
Proof.
  induction l as [|f l IH]; constructor; [apply entry_of_built_from|exact IH].
Qed.

Lemma dict_set_Forall {V : Type} (P : string * V -> Prop) (k : string) (v : V)
    (d : list (string * V)) :
  P (k, v) -> Forall P d -> Forall P (dict_set k v d).
Proof.
  intros Hv. induction 1 as [|[k' v'] d Hx Hd IH]; simpl.
  - constructor; [exact Hv|constructor].
  - destruct (String.eqb k' k); constructor; auto.
Qed.

(** Every yield of the walk is a directory of the tree, at its path. *)
Lemma yields_listed (n : Node) :
  forall t top dirs fnames,
    In (top, dirs, fnames) (yields t n) ->
    exists q subdirs, top = t ++ q /\ listed n q fnames subdirs.
Proof.
  induction n as [|fnames0 subdirs0 IH] using Node_ind;
    intros t top dirs fnames Hin; [contradiction|].
  cbn [yields] in Hin. destruct Hin as [E|Hin].
  - inversion E; subst. exists [], subdirs0. rewrite app_nil_r.
    split; [reflexivity|constructor].
  - apply in_flat_map in Hin as [[d sub] [He Hy]]. cbn [fst snd] in Hy.
    destruct (keep d) eqn:Hk; [|contradiction].
    rewrite Forall_forall in IH.
    destruct (IH (d, sub) He _ _ _ _ Hy) as (q & subdirs & -> & Hl).
    exists (d :: q), subdirs. split; [now rewrite <- app_assoc|].
    now apply (listed_below fnames0 subdirs0 d sub).
Qed.

(** Every entry of the folder mapping is that of a yield of the walk: under
    the key of its path, the entries of its countable files. *)
Lemma fold_entries_of_yields
    (all ys : list (list string * list string * list string)) :
  forall s,
    incl ys all ->
    Forall (fun kv => exists y, In y all
                                /\ fst kv = folder_key (yield_top y)
                                /\ files (snd kv)
                                   = map entry_of (filter keep (snd y)))
           (folders s) ->
    Forall (fun kv => exists y, In y all
                                /\ fst kv = folder_key (yield_top y)
                                /\ files (snd kv)
                                   = map entry_of (filter keep (snd y)))
           (folders (fold_left visit_yield ys s)).
Proof.
  induction ys as [|[[top dirs] fnames] ys IH]; intros s Hincl H; [exact H|].
  cbn [fold_left]. apply IH; [intros y Hy; apply Hincl; now right|].
  rewrite visit_yield_folders.
  destruct (recorded dirs fnames); [|exact H].
  apply dict_set_Forall; [|exact H].
  exists (top, dirs, fnames). split; [apply Hincl; now left|].
  split; reflexivity.
Qed.

(** C7.  Whatever the file name and the pattern type, the redacted name
    that [redact_filename] returns ends with the extension of the file name,
    which is the end of the name as it is spelled.  In the folder mapping
    of a scan, every [FolderInfo] is that of a directory of the vault, under
    the key of its path, and its [files] are, one for one and in order, the
    entries of the countable files of that directory: in each of them
    [extension] is the extension of the file, as it is spelled, and
    [redacted_name] is the redacted name of the file, which ends with
    it. *)
Theorem extension_preserved :
  (forall filename pattern_type,
      exists body,
        redact_filename filename pattern_type = body +++ Pathlib.suffix filename)
  /\ (forall filename,
         Pathlib.stem filename +++ Pathlib.suffix filename = Pathlib.name filename)
  /\ (forall vault_name now v,
         Forall (fun kv =>
                   exists p fnames subdirs,
                     listed v p fnames subdirs
                     /\ fst kv = folder_key p
                     /\ Forall2 built_from (files (snd kv))
                                           (filter keep fnames))
                (folders (scan_vault vault_name now v))).
Proof.
  split; [exact redact_filename_ends_with_suffix|].
  split; [exact stem_suffix_name|].
  intros vault_name now v. unfold scan_vault. rewrite os_walk_yields.
  eapply Forall_impl;
    [|apply (fold_entries_of_yields (yields [] v) (yields [] v));
      [apply incl_refl|constructor]].
  intros kv ([[top dirs] fnames] & Hy & Hk & Hf).
  destruct (yields_listed v [] top dirs fnames Hy) as (q & subdirs & -> & Hl).
  exists q, fnames, subdirs. split; [exact Hl|]. split; [exact Hk|].
  cbn [snd] in Hf. rewrite Hf. apply entries_built_from.
Qed.

Example extension_case_kept :
  redact_filename "Plan.PNG" "standard" = "[Note_0b6cbd] (~1 words in title).PNG"
  /\ extension (entry_of "Plan.PNG") = ".PNG".
Proof. split; vm_compute; reflexivity. Qed.

(** ** The examples of a folder in the report *)

Lemma examples_loop_spec (fs : list FileEntry) :
  forall md shown seen,
    examples_loop fs md shown seen
    = (md +++ rows (shown_examples fs shown seen),
       shown + List.length (shown_examples fs shown seen)).
Proof.
  induction fs as [|f fs IH]; intros md shown seen; cbn [examples_loop shown_examples].
  - cbn [rows List.length]. now rewrite append_nil_r, Nat.add_0_r.
  - destruct (negb (Py.mem (pattern f) seen) || (shown <? 3)).
    + destruct (5 <=? S shown).
      * cbn [rows List.length]. rewrite append_nil_r. f_equal. lia.
      * rewrite IH. cbn [rows List.length]. rewrite append_assoc. f_equal. lia.
    + destruct (5 <=? shown).
      * cbn [rows List.length]. now rewrite append_nil_r, Nat.add_0_r.
      * apply IH.
Qed.

Lemma subseq_nil_l {A : Type} (l : list A) : subseq [] l.
Proof. induction l; constructor; auto. Qed.

Lemma shown_examples_subseq (fs : list FileEntry) :
  forall shown seen, subseq (shown_examples fs shown seen) fs.
Proof.
  induction fs as [|f fs IH]; intros shown seen; cbn [shown_examples];
    [constructor|].
  destruct (negb (Py.mem (pattern f) seen) || (shown <? 3)).
  - apply subseq_take. destruct (5 <=? S shown); [apply subseq_nil_l|apply IH].
  - apply subseq_skip. destruct (5 <=? shown); [apply subseq_nil_l|apply IH].
Qed.

Lemma shown_examples_cap (fs : list FileEntry) :
  forall shown seen,
    shown < 5 -> shown + List.length (shown_examples fs shown seen) <= 5.
Proof.
  induction fs as [|f fs IH]; intros shown seen Hs; cbn [shown_examples].
  - simpl. lia.
  - destruct (negb (Py.mem (pattern f) seen) || (shown <? 3)).
    + destruct (5 <=? S shown) eqn:E; cbn [List.length].
      * lia.
      * apply Nat.leb_gt in E.
        specialize (IH (S shown)
                       (if Py.mem (pattern f) seen then seen
                        else pattern f :: seen) E). lia.
    + destruct (5 <=? shown) eqn:E; [simpl; lia|]. now apply IH.
Qed.

Lemma shown_examples_first (fs : list FileEntry) :
  forall shown seen,
    firstn (3 - shown) (shown_examples fs shown seen) = firstn (3 - shown) fs.
Proof.
  induction fs as [|f fs IH]; intros shown seen; cbn [shown_examples];
    [reflexivity|].
  destruct (shown <? 3) eqn:E.
  - apply Nat.ltb_lt in E. rewrite orb_true_r.
    replace (3 - shown) with (S (3 - S shown)) by lia.
    cbn [firstn]. f_equal.
    destruct (5 <=? S shown) eqn:E5; [apply Nat.leb_le in E5; lia|].
    apply IH.
  - apply Nat.ltb_ge in E. replace (3 - shown) with 0 by lia. reflexivity.
Qed.

Lemma seen_add_incl (x pat : string) (seen rest : list string) :
  In x (seen ++ pat :: rest) <->
  In x ((if Py.mem pat seen then seen else pat :: seen) ++ rest).
Proof.
  destruct (Py.mem pat seen) eqn:E.
  - apply mem_In in E. rewrite !in_app_iff. simpl. split; [|tauto].
    intros [H|[<-|H]]; auto.
  - rewrite !in_app_iff. simpl. tauto.
Qed.

(** After the third row, a file is shown only if no row before it has its
    pattern. *)
Lemma shown_examples_new_pattern (fs : list FileEntry) :
  forall shown seen pre e post,
    shown_examples fs shown seen = pre ++ e :: post ->
    3 <= shown + List.length pre ->
    ~ In (pattern e) (seen ++ map pattern pre).
Proof.
  induction fs as [|f fs IH]; intros shown seen pre e post H Hl;
    cbn [shown_examples] in H.
  - destruct pre; discriminate.
  - destruct (negb (Py.mem (pattern f) seen) || (shown <? 3)) eqn:C.
    + destruct pre as [|f' pre].
      * injection H as Ef _. subst f. simpl in Hl. rewrite Nat.add_0_r in Hl.
        apply Nat.ltb_ge in Hl. rewrite Hl, orb_false_r in C.
        apply negb_true_iff in C. rewrite app_nil_r. intros Hin.
        apply mem_In in Hin. congruence.
      * rewrite <- app_comm_cons in H.
        destruct (5 <=? S shown);
          injection H as Ef Ht; [destruct pre; discriminate|]. subst f'.
        cbn [map]. rewrite seen_add_incl.
        apply (IH _ _ _ _ _ Ht). simpl in Hl. lia.
    + destruct (5 <=? shown); [destruct pre; discriminate|].
      now apply (IH _ _ _ _ _ H).
Qed.

(** When fewer than five rows are shown, every pattern of the folder has a
    row. *)
Lemma shown_examples_all_patterns (fs : list FileEntry) :
  forall shown seen,
    shown + List.length (shown_examples fs shown seen) < 5 ->
    forall f, In f fs ->
              In (pattern f) (seen ++ map pattern (shown_examples fs shown seen)).
Proof.
  induction fs as [|f0 fs IH]; intros shown seen Hl f Hf; [contradiction|].
  cbn [shown_examples] in *.
  destruct (negb (Py.mem (pattern f0) seen) || (shown <? 3)) eqn:C.
  - destruct (5 <=? S shown) eqn:E5.
    + apply Nat.leb_le in E5. simpl in Hl. lia.
    + cbn [map]. apply seen_add_incl. cbn [List.length] in Hl.
      destruct Hf as [<-|Hf].
      * apply in_app_iff. left.
        destruct (Py.mem (pattern f0) seen) eqn:M; [now apply mem_In|now left].
      * apply IH; [lia|exact Hf].
  - apply orb_false_iff in C as [C _]. apply negb_false_iff, mem_In in C.
    destruct (5 <=? shown) eqn:E5.
    + apply Nat.leb_le in E5. simpl in Hl. lia.
    + destruct Hf as [<-|Hf]; [apply in_app_iff; now left|now apply IH].
Qed.

(** A folder with six pattern types, of which the sixth has no row; and a
    folder with four files of one pattern type, of which three have a row
    although two rows are left up to five. *)
Lemma examples_cap_drops_pattern :
  In "uuid" (map pattern (files folder_six_patterns))
  /\ folder_detail "" "Inbox" folder_six_patterns
     = detail_heading "Inbox" +++ table_head
       +++ rows (firstn 5 (files folder_six_patterns))
       +++ nl +++ "*...and 1 more files*" +++ nl +++ nl
  /\ ~ In "uuid" (map pattern (firstn 5 (files folder_six_patterns)))
  /\ Py.contains "uuid" (folder_detail "" "Inbox" folder_six_patterns) = false
  /\ List.length (files folder_four_standard) = 4
  /\ folder_detail "" "Notes" folder_four_standard
     = detail_heading "Notes" +++ table_head
       +++ rows (firstn 3 (files folder_four_standard))
       +++ nl +++ "*...and 1 more files*" +++ nl +++ nl.
Proof.
  split; [vm_compute; tauto|].
  split; [vm_compute; reflexivity|].
  split; [vm_compute; intuition discriminate|].
  split; [vm_compute; reflexivity|].
  split; [vm_compute; reflexivity|].
  vm_compute; reflexivity.
Qed.

(** C6, as the code has it.  The detail section of a folder with files is
    its heading, the head of the table, one row for each example and, when
    files are left, their number: the number of files minus the number of
    rows.  There are at most five examples, taken in the order of the files:
    the first three files, then only files whose pattern has no row yet.
    When fewer than five rows are shown, every pattern type of the folder
    has a row. *)
Theorem folder_detail_examples (md folder_path : string) (info : FolderInfo) :
  let ex := shown_examples (files info) 0 [] in
  let remaining := List.length (files info) - List.length ex in
  (files info <> [] ->
   folder_detail md folder_path info
   = md +++ detail_heading folder_path +++ table_head +++ rows ex
        +++ (if 0 <? remaining
             then nl +++ "*...and " +++ Py.str_of_nat remaining
                     +++ " more files*" +++ nl
             else "")
        +++ nl)
  /\ List.length ex <= 5
  /\ subseq ex (files info)
  /\ firstn 3 ex = firstn 3 (files info)
  /\ (forall pre e post,
         ex = pre ++ e :: post -> 3 <= List.length pre ->
         ~ In (pattern e) (map pattern pre))
  /\ (List.length ex < 5 ->
      forall f, In f (files info) -> In (pattern f) (map pattern ex)).
Proof.
  intros ex remaining. subst ex remaining.
  split; [|split; [|split; [|split; [|split]]]].
  - intros Hne. unfold folder_detail, detail_heading, table_head.
    destruct (files info) as [|f fs] eqn:Ef; [congruence|].
    cbn [nonempty]. rewrite examples_loop_spec. cbn [Nat.add].
    destruct (0 <? _); now rewrite !append_assoc, ?append_nil_r.
  - apply (shown_examples_cap (files info) 0 []). lia.
  - apply shown_examples_subseq.
  - apply (shown_examples_first (files info) 0 []).
  - intros pre e post H Hl.
    exact (shown_examples_new_pattern (files info) 0 [] pre e post H Hl).
  - intros Hl f Hf.
    exact (shown_examples_all_patterns (files info) 0 [] Hl f Hf).
Qed.

Lemma folder_detail_examples_witness :
  folder_detail "" "Notes" folder_four_standard
  = detail_heading "Notes" +++ table_head
    +++ rows (firstn 3 (files folder_four_standard))
    +++ nl +++ "*...and 1 more files*" +++ nl +++ nl
  /\ (forall f, In f (files folder_four_standard) ->
                In (pattern f)
                   (map pattern (shown_examples (files folder_four_standard) 0 []))).
Proof.
  destruct (folder_detail_examples "" "Notes" folder_four_standard)
    as (Htext & _ & _ & _ & _ & Hall).
  split.
  - rewrite Htext; [vm_compute; reflexivity|]. vm_compute. discriminate.
  - apply Hall. vm_compute. lia.
Defined.

(** * Further properties *)

(** ** Files that the skip rule excludes *)

Lemma filter_idem {A : Type} (q : A -> bool) (l : list A) :
  filter q (filter q l) = filter q l.
Proof.
  induction l as [|x l IH]; [reflexivity|]. simpl.
  destruct (q x) eqn:E; simpl; [rewrite E|]; now rewrite ?IH.
Qed.

Lemma visit_filtered_files (top dirs fnames : list string) (s : Structure) :
  visit top dirs (filter keep fnames) s = visit top dirs fnames s.
Proof. unfold visit. now rewrite filter_idem. Qed.

Lemma os_walk_without_excluded_files (n : Node) :
  forall top s,
    os_walk visit top (without_excluded_files n) s = os_walk visit top n s.
Proof.
  induction n as [|fnames subdirs IH] using Node_ind; intros top s; [reflexivity|].
  cbn [without_excluded_files]. rewrite !os_walk_dir, map_map.
  rewrite (map_ext (fun x => fst (fst x, without_excluded_files (snd x))) fst)
    by reflexivity.
  rewrite visit_filtered_files, fold_left_map.
  generalize (fst (visit top (map fst subdirs) fnames s)) as s1.
  induction IH as [|e l He _ IHl]; intros s1; [reflexivity|].
  cbn [fold_left fst snd]. destruct (keep (fst e)); [rewrite He|]; apply IHl.
Qed.

(** X1.  Files whose name is in the skip list or begins with a dot are not
    counted and have no entry: the scan of a vault is the scan of the vault
    without these files. *)
Theorem excluded_files_not_scanned (vault_name now : string) (v : Node) :
  scan_vault vault_name now (without_excluded_files v)
  = scan_vault vault_name now v.
Proof. unfold scan_vault. apply os_walk_without_excluded_files. Qed.

(** ** The number of files *)

Lemma fold_total_files (ys : list (list string * list string * list string)) :
  forall s,
    total_files (stats (fold_left visit_yield ys s))
    = total_files (stats s)
      + list_sum (map (fun y => List.length (filter keep (snd y))) ys).
Proof.
  induction ys as [|[[top dirs] fnames] ys IH]; intros s.
  - simpl. lia.
  - cbn [fold_left map list_sum fold_right snd]. rewrite IH.
    rewrite (proj2 (visit_yield_stats s top dirs fnames)).
    fold (list_sum (map (fun y => List.length (filter keep (snd y))) ys)). lia.
Qed.

Lemma yields_countable_files (n : Node) :
  forall top,
    list_sum (map (fun y => List.length (filter keep (snd y))) (yields top n))
    = countable_files n.
Proof.
  induction n as [|fnames subdirs IH] using Node_ind; intros top; [reflexivity|].
  cbn [yields countable_files map list_sum fold_right snd].
  fold (list_sum (map (fun y => List.length (filter keep (snd y)))
                      (flat_map (fun e => if keep (fst e)
                                          then yields (top ++ [fst e]) (snd e)
                                          else []) subdirs))).
  f_equal.
  induction IH as [|e l He _ IHl]; [reflexivity|].
  cbn [flat_map map]. rewrite map_app, list_sum_app, IHl.
  cbn [list_sum fold_right].
  fold (list_sum (map (fun e => if keep (fst e) then countable_files (snd e)
                                else 0) l)).
  destruct (keep (fst e)); [now rewrite He|reflexivity].
Qed.

(** X2.  [total_files] is the number of files that the skip rule keeps, in
    the directories reached from the vault root through names that the skip
    rule keeps. *)
Theorem total_files_counts_countable_files (vault_name now : string) (v : Node) :
  total_files (stats (scan_vault vault_name now v)) = countable_files v.
Proof.
  unfold scan_vault. rewrite os_walk_yields, fold_total_files.
  cbn [stats total_files]. now rewrite yields_countable_files.
Qed.

(** ** The counters by type and by pattern *)

Lemma incr_sum (k : string) (d : list (string * nat)) :
  sum_counts (incr k d) = S (sum_counts d).
Proof.
  unfold incr, sum_counts.
  induction d as [|[k' n'] d IH]; [reflexivity|]. cbn [dict_get dict_set].
  destruct (String.eqb k' k); cbn [map snd list_sum fold_right].
  - reflexivity.
  - fold (list_sum (map snd d)).
    fold (list_sum (map snd (dict_set k (S match dict_get k d with
                                           | Some n => n | None => 0 end) d))).
    rewrite IH. lia.
Qed.

Lemma dict_set_keys_eq {V : Type} (k : string) (v : V) (d : list (string * V)) :
  map fst (dict_set k v d)
  = if Py.mem k (map fst d) then map fst d else map fst d ++ [k].
Proof.
  induction d as [|[k' v'] d IH]; [reflexivity|]. cbn [dict_set map fst].
  unfold Py.mem. cbn [existsb]. rewrite (String.eqb_sym k k').
  destruct (String.eqb k' k) eqn:E; cbn [orb map fst].
  - apply String.eqb_eq in E. now subst.
  - rewrite IH. unfold Py.mem. now destruct (existsb (String.eqb k) (map fst d)).
Qed.

Lemma incr_counter_over (names : list string) (k : string)
    (d : list (string * nat)) :
  In k names -> counter_over names d -> counter_over names (incr k d).
Proof.
  intros Hk [Hn Hf]. unfold incr. split.
  - rewrite dict_set_keys_eq. destruct (Py.mem k (map fst d)) eqn:E; [exact Hn|].
    apply NoDup_app; [exact Hn|repeat constructor; auto|].
    intros a Ha [<-|[]]. apply mem_In in Ha. congruence.
  - apply dict_set_Forall; [|exact Hf]. cbn [fst snd]. split; [exact Hk|lia].
Qed.

Lemma category_cases (filename : string) :
  In (get_file_type_category filename) category_names.
Proof.
  unfold get_file_type_category, category_names.
  destruct (find _ categories) as [cat|] eqn:E.
  - apply find_some in E as [Hin _]. apply in_or_app. left. now apply in_map.
  - apply in_or_app. right. now left.
Qed.

Lemma add_files_balanced (l : list string) :
  forall fl st,
    balanced st -> balanced (snd (fold_left add_file l (fl, st))).
Proof.
  induction l as [|f l IH]; intros fl st Hb; [exact Hb|].
  cbn [fold_left]. rewrite add_file_entry. apply IH.
  destruct Hb as (H1 & H2 & H3 & H4). unfold balanced.
  cbn [file_types patterns_found total_files].
  rewrite !incr_sum, H1, H2.
  split; [reflexivity|]. split; [reflexivity|]. split.
  - apply incr_counter_over; [apply category_cases|exact H3].
  - apply incr_counter_over; [apply detect_cases|exact H4].
Qed.

Lemma visit_yield_balanced (s : Structure)
    (y : list string * list string * list string) :
  balanced (stats s) -> balanced (stats (visit_yield s y)).
Proof.
  destruct y as [[top dirs] fnames]. intros Hb.
  unfold visit_yield, visit. cbn [fst snd].
  destruct (nonempty (filter keep fnames) || nonempty (filter keep dirs));
    [|exact Hb].
  match goal with
  | |- context [fold_left add_file ?l (?fl, ?st)] =>
      pose proof (add_files_balanced l fl st Hb) as Hb2;
      destruct (fold_left add_file l (fl, st)) as [fl' st2]
  end.
  cbn [snd] in Hb2. destruct (String.eqb _ ""); exact Hb2.
Qed.

Lemma scan_balanced (vault_name now : string) (v : Node) :
  balanced (stats (scan_vault vault_name now v)).
Proof.
  unfold scan_vault. rewrite os_walk_yields.
  generalize (yields [] v) as ys.
  assert (H0 : balanced (stats (mkStructure vault_name now [] (mkStats 0 0 [] [] 0)))).
  { split; [reflexivity|]. split; [reflexivity|].
    split; split; constructor. }
  revert H0. generalize (mkStructure vault_name now [] (mkStats 0 0 [] [] 0)) as s.
  intros s Hs ys. revert s Hs.
  induction ys as [|y ys IH]; intros s Hs; [exact Hs|].
  cbn [fold_left]. apply IH. now apply visit_yield_balanced.
Qed.

(** X3.  The counts by file type add up to [total_files], and so do the
    counts by pattern type. *)
Theorem counters_sum_to_total_files (vault_name now : string) (v : Node) :
  sum_counts (file_types (stats (scan_vault vault_name now v)))
  = total_files (stats (scan_vault vault_name now v))
  /\ sum_counts (patterns_found (stats (scan_vault vault_name now v)))
     = total_files (stats (scan_vault vault_name now v)).
Proof.
  destruct (scan_balanced vault_name now v) as (H1 & H2 & _). auto.
Qed.

(** X4.  [file_types] has each of its keys once, among the eight categories
    and [other], and [patterns_found] has each of its keys once, among the
    seven pattern types; every count in them is at least 1. *)
Theorem counters_keys (vault_name now : string) (v : Node) :
  counter_over category_names (file_types (stats (scan_vault vault_name now v)))
  /\ counter_over pattern_types
                  (patterns_found (stats (scan_vault vault_name now v))).
Proof.
  destruct (scan_balanced vault_name now v) as (_ & _ & H3 & H4). auto.
Qed.

(** ** The entries of the folder mapping *)

Lemma folder_info_ok_mono (dm dm' : nat) (info : FolderInfo) :
  dm <= dm' -> folder_info_ok dm info -> folder_info_ok dm' info.
Proof.
  intros Hle (H1 & H2 & H3). split; [exact H1|]. split; [lia|exact H3].
Qed.

Lemma folder_info_of_ok (top dirs fnames : list string) (dm : nat) :
  folder_depth top <= dm -> folder_info_ok dm (folder_info_of top dirs fnames).
Proof.
  intros Hd. unfold folder_info_ok, folder_info_of.
  cbn [file_count files depth]. rewrite length_map.
  split; [reflexivity|]. split; [exact Hd|].
  apply Forall_forall. intros e He. apply in_map_iff in He as [f [<- Hf]].
  apply filter_In in Hf as [_ Hk]. now exists f.
Qed.

Lemma visit_yield_folder_info_ok (s : Structure)
    (y : list string * list string * list string) :
  Forall (fun kv => folder_info_ok (depth_max (stats s)) (snd kv)) (folders s) ->
  Forall (fun kv => folder_info_ok (depth_max (stats (visit_yield s y))) (snd kv))
         (folders (visit_yield s y)).
Proof.
  destruct y as [[top dirs] fnames]. intros H.
  rewrite visit_yield_folders, (proj1 (visit_yield_stats s top dirs fnames)).
  assert (H' : Forall (fun kv => folder_info_ok
                                   (Nat.max (depth_max (stats s)) (folder_depth top))
                                   (snd kv)) (folders s)).
  { eapply Forall_impl; [|exact H]. intros kv. apply folder_info_ok_mono. lia. }
  destruct (recorded dirs fnames); [|exact H'].
  apply dict_set_Forall; [|exact H']. cbn [snd].
  apply folder_info_of_ok. lia.
Qed.

(** X5.  In every [FolderInfo] of a scan, [file_count] is the length of
    [files], [depth] is at most [depth_max], and every entry of [files] is
    the entry of a file name that the skip rule keeps. *)
Theorem folder_infos_consistent (vault_name now : string) (v : Node) :
  Forall (fun kv =>
            folder_info_ok (depth_max (stats (scan_vault vault_name now v)))
                           (snd kv))
         (folders (scan_vault vault_name now v)).
Proof.
  unfold scan_vault. rewrite os_walk_yields.
  generalize (yields [] v) as ys.
  assert (H0 : Forall (fun kv : string * FolderInfo => folder_info_ok
                         (depth_max (stats (mkStructure vault_name now []
                                                         (mkStats 0 0 [] [] 0))))
                         (snd kv))
                 (folders (mkStructure vault_name now [] (mkStats 0 0 [] [] 0))))
    by constructor.
  revert H0. generalize (mkStructure vault_name now [] (mkStats 0 0 [] [] 0)) as s.
  intros s Hs ys. revert s Hs.
  induction ys as [|y ys IH]; intros s Hs; [exact Hs|].
  cbn [fold_left]. apply IH. now apply visit_yield_folder_info_ok.
Qed.

(** ** The folder mapping of a well-formed tree *)

Lemma fold_folders (ys : list (list string * list string * list string)) :
  forall s,
    NoDup (map (fun y => folder_key (yield_top y)) ys) ->
    (forall y, In y ys -> ~ In (folder_key (yield_top y)) (map fst (folders s))) ->
    folders (fold_left visit_yield ys s)
    = folders s ++ map yield_entry (filter yield_recorded ys).
Proof.
  induction ys as [|y ys IH]; intros s Hn Hfresh.
  - simpl. now rewrite app_nil_r.
  - cbn [fold_left]. simpl in Hn. apply NoDup_cons_iff in Hn as [Hy Hn].
    rewrite IH; [|exact Hn|].
    + destruct y as [[top dirs] fnames]. rewrite visit_yield_folders.
      cbn [filter]. unfold yield_recorded at 2. cbn [fst snd].
      destruct (recorded dirs fnames); [|reflexivity].
      rewrite dict_set_fresh by (apply (Hfresh (top, dirs, fnames)); now left).
      now rewrite <- app_assoc.
    + intros y' Hy' Hin. apply visit_yield_keys in Hin as [Hin|[_ E]].
      * exact (Hfresh y' (or_intror Hy') Hin).
      * apply Hy. rewrite E.
        now apply (in_map (fun y => folder_key (yield_top y))).
Qed.

(** The folder mapping of a scan: the recorded directories, in the order of
    the walk. *)
Lemma scan_folders (vault_name now : string) (v : Node) :
  well_formed v = true ->
  folders (scan_vault vault_name now v)
  = map yield_entry (filter yield_recorded (yields [] v)).
Proof.
  intros Hwf. unfold scan_vault. rewrite os_walk_yields, fold_folders.
  - reflexivity.
  - now apply yields_keys_nodup.
  - intros y _ H. exact H.
Qed.

Lemma NoDup_map_filter {A B : Type} (f : A -> B) (q : A -> bool) (l : list A) :
  NoDup (map f l) -> NoDup (map f (filter q l)).
Proof.
  induction l as [|x l IH]; simpl; [auto|].
  intros Hn. apply NoDup_cons_iff in Hn as [Hx Hn].
  destruct (q x); [|auto]. simpl. constructor; [|auto].
  intros Hin. apply Hx. apply in_map_iff in Hin as [y [E Hy]].
  apply filter_In in Hy as [Hy _]. rewrite <- E. now apply in_map.
Qed.

(** X6.  In a well-formed vault, a directory that the walk reaches and that
    has a countable file or a subdirectory kept by the skip rule is found in
    the folder mapping under its key; its entry counts its countable files
    and its kept subdirectories, lists the entries of its countable files in
    their order, and has the number of names of its path as depth. *)
Theorem recorded_directory_lookup (vault_name now : string) (v : Node)
    (p fnames : list string) (subdirs : list (string * Node)) :
  well_formed v = true ->
  reach v p = Some (Dir fnames subdirs) ->
  recorded (map fst subdirs) fnames = true ->
  dict_get (folder_key p) (folders (scan_vault vault_name now v))
  = Some (mkFolderInfo (List.length (filter keep fnames))
                       (List.length (filter keep (map fst subdirs)))
                       (map entry_of (filter keep fnames))
                       (List.length p)).
Proof.
  intros Hwf Hr Hrec. rewrite scan_folders by exact Hwf.
  pose proof (reach_yields p v [] fnames subdirs Hr) as Hy. cbn [app] in Hy.
  set (y := (p, map fst subdirs, fnames)) in *.
  assert (Hin : In (yield_entry y)
                   (map yield_entry (filter yield_recorded (yields [] v)))).
  { apply in_map, filter_In. split; [exact Hy|exact Hrec]. }
  assert (Hn : NoDup (map fst (map yield_entry
                                   (filter yield_recorded (yields [] v))))).
  { rewrite map_map. cbn [yield_entry fst].
    apply NoDup_map_filter. now apply yields_keys_nodup. }
  pose proof (dict_get_nodup _ _ Hn Hin) as Hg.
  change (fst (yield_entry y)) with (folder_key p) in Hg.
  change (snd (yield_entry y))
    with (folder_info_of p (map fst subdirs) fnames) in Hg.
  rewrite Hg. unfold folder_info_of.
  now rewrite (folder_depth_length p (proj1 (reach_valid p v _ Hwf Hr))).
Qed.

Lemma recorded_directory_lookup_witness :
  dict_get "Journal" (folders (scan_vault "MyVault" "t0" example_vault))
  = Some (mkFolderInfo 2 0
            [entry_of "2024-01-15.md"; entry_of "2024-01-16.md"] 1).
Proof.
  exact (recorded_directory_lookup "MyVault" "t0" example_vault ["Journal"]
           ["2024-01-15.md"; "2024-01-16.md"] [] eq_refl eq_refl eq_refl).
Defined.

(** ** The number of folders *)

Lemma root_key_iff (top : list string) :
  valid_path top ->
  String.eqb (if String.eqb (relpath top) "." then "" else relpath top) ""
  = String.eqb (folder_key top) "/".
Proof.
  intros Hv. destruct top as [|n top]; [reflexivity|].
  destruct (valid_path_join (n :: top) Hv) as (H1 & H2 & H3); [discriminate|].
  unfold folder_key. change (relpath (n :: top)) with (Py.join "/" (n :: top)).
  apply String.eqb_neq in H1, H2. rewrite H1, H2.
  apply String.eqb_neq in H3. now rewrite H3.
Qed.

Lemma visit_yield_total_folders (s : Structure) (top dirs fnames : list string) :
  valid_path top ->
  total_folders (stats (visit_yield s (top, dirs, fnames)))
  = total_folders (stats s)
    + (if recorded dirs fnames && negb (String.eqb (folder_key top) "/")
       then 1 else 0).
Proof.
  intros Hv. rewrite <- (root_key_iff top Hv).
  unfold visit_yield, visit, recorded. cbn [fst snd].
  destruct (nonempty (filter keep fnames) || nonempty (filter keep dirs)).
  - match goal with
    | |- context [fold_left add_file ?l (?fl, ?st)] =>
        destruct (add_files_spec l fl st) as (_ & _ & H3 & _);
        destruct (fold_left add_file l (fl, st)) as [fl' st2]
    end.
    cbn [snd total_folders] in H3.
    destruct (String.eqb _ ""); cbn [fst stats total_folders andb negb]; lia.
  - cbn [fst stats total_folders andb]. lia.
Qed.

Lemma fold_total_folders (ys : list (list string * list string * list string)) :
  forall s,
    (forall y, In y ys -> valid_path (yield_top y)) ->
    total_folders (stats (fold_left visit_yield ys s))
    = total_folders (stats s)
      + List.length
          (filter (fun y => yield_recorded y
                            && negb (String.eqb (folder_key (yield_top y)) "/"))
                  ys).
Proof.
  induction ys as [|[[top dirs] fnames] ys IH]; intros s Hv.
  - simpl. lia.
  - cbn [fold_left filter]. rewrite IH by (intros; apply Hv; now right).
    rewrite visit_yield_total_folders
      by exact (Hv (top, dirs, fnames) (or_introl eq_refl)).
    unfold yield_recorded at 2, yield_top at 2. cbn [fst snd].
    destruct (recorded dirs fnames && negb (String.eqb (folder_key top) "/"));
      cbn [List.length]; lia.
Qed.

Lemma filter_entries_length
    (ys : list (list string * list string * list string)) :
  List.length
    (filter (fun kv : string * FolderInfo => negb (String.eqb (fst kv) "/"))
            (map yield_entry (filter yield_recorded ys)))
  = List.length
      (filter (fun y => yield_recorded y
                        && negb (String.eqb (folder_key (yield_top y)) "/"))
              ys).
Proof.
  induction ys as [|y ys IH]; [reflexivity|]. cbn [filter].
  destruct (yield_recorded y); cbn [andb map filter]; [|exact IH].
  unfold yield_entry at 1. cbn [fst].
  destruct (negb (String.eqb (folder_key (yield_top y)) "/"));
    cbn [List.length]; now rewrite IH.
Qed.

Lemma scan_total_folders (vault_name now : string) (v : Node) :
  well_formed v = true ->
  total_folders (stats (scan_vault vault_name now v))
  = List.length
      (filter (fun kv : string * FolderInfo => negb (String.eqb (fst kv) "/"))
              (folders (scan_vault vault_name now v))).
Proof.
  intros Hwf. rewrite scan_folders by exact Hwf.
  rewrite filter_entries_length. unfold scan_vault.
  rewrite os_walk_yields, fold_total_folders; [reflexivity|].
  intros y Hy. now apply (yields_valid v).
Qed.

(** X7.  In a well-formed vault, [total_folders] is the number of keys of
    the folder mapping other than the key [/] of the root. *)
Theorem total_folders_counts_keys (vault_name now : string) (v : Node) :
  well_formed v = true ->
  total_folders (stats (scan_vault vault_name now v))
  = List.length
      (filter (fun kv : string * FolderInfo => negb (String.eqb (fst kv) "/"))
              (folders (scan_vault vault_name now v))).
Proof. exact (scan_total_folders vault_name now v). Qed.

Lemma total_folders_counts_keys_witness :
  total_folders (stats (scan_vault "MyVault" "t0" example_vault))
  = List.length
      (filter (fun kv : string * FolderInfo => negb (String.eqb (fst kv) "/"))
              (folders (scan_vault "MyVault" "t0" example_vault))).
Proof. exact (total_folders_counts_keys "MyVault" "t0" example_vault eq_refl). Defined.

(** ** The rules of the classifier for dates, weeks and time stamps *)

Lemma digit_facts (c : ascii) :
  Py.is_digit c = true ->
  Re.is_char "-" c = false /\ Re.is_char "." c = false /\ Re.is_w_ci c = false.
Proof. each_char c. Qed.

Lemma w_facts (c : ascii) :
  Re.is_w_ci c = true ->
  Py.is_digit c = false /\ Re.is_char "-" c = false /\ Re.is_char "." c = false.
Proof. each_char c. Qed.

Lemma literal_facts :
  Py.is_digit "-" = false /\ Py.is_digit "." = false
  /\ Re.is_char "-" "." = false /\ Re.is_char "." "-" = false
  /\ Re.is_char "-" "-" = true /\ Re.is_char "." "." = true
  /\ Re.is_w_ci "-" = false /\ Re.is_w_ci "." = false
  /\ Py.is_digit "010" = false.
Proof. repeat split; reflexivity. Qed.

Lemma at_dollar_cases (rest : string) :
  Re.at_dollar rest = true -> rest = "" \/ rest = String (ascii_of_nat 10) "".
Proof.
  unfold Re.at_dollar. intros [H|H]%orb_true_iff; apply String.eqb_eq in H; auto.
Qed.

Lemma contains_char (a : ascii) (s : string) :
  Py.contains (String a "") s = char_in a s.
Proof.
  induction s as [|c s IH]; [reflexivity|].
  rewrite contains_cons, IH. cbn [prefix char_in].
  destruct (ascii_dec a c) as [->|Hne].
  - rewrite Ascii.eqb_refl. now destruct s.
  - assert (E : Ascii.eqb c a = false) by (apply Ascii.eqb_neq; congruence).
    now rewrite E.
Qed.

Lemma eqb_is_char (a c : ascii) : Ascii.eqb c a = Re.is_char a c.
Proof. reflexivity. Qed.

Section DateShapes.

Local Opaque Py.is_digit Re.is_hex_ci Re.is_sep Re.is_char Re.is_w_ci.

(** Split a stem along the classes it is known to match, and collect what
    is known of each of its characters. *)
Ltac split_stem s Hm :=
  let rest := fresh "rest" in
  let E := fresh "E" in
  unfold Re.match_exact in Hm;
  destruct (Re.consume _ s) as [rest|] eqn:E; [|discriminate];
  unfold Re.re_date_ymd_hyphen, Re.re_date_ymd_dot, Re.re_date_mdy,
    Re.re_week, Re.digits, Re.lit in E;
  simpl in E;
  repeat (destruct s as [|?c s]; [discriminate|];
          match type of E with
          | (if ?b then _ else _) = _ => destruct b eqn:?; [|discriminate]
          end);
  injection E as E; subst s;
  repeat match goal with
         | H : Re.is_char _ _ = true |- _ => apply is_char_eq in H; subst
         end;
  repeat match goal with
         | H : Py.is_digit ?c = true |- _ =>
             destruct (digit_facts c H) as (? & ? & ?); revert H
         | H : Re.is_w_ci ?c = true |- _ =>
             destruct (w_facts c H) as (? & ? & ?); revert H
         end;
  intros;
  destruct literal_facts as (? & ? & ? & ? & ? & ? & ? & ? & ?).

Ltac decide_rules :=
  unfold Re.match_exact, Re.match_numbered_prefix, Re.re_date_ymd_hyphen,
    Re.re_date_ymd_dot, Re.re_date_mdy, Re.re_week, Re.digits, Re.lit;
  simpl; rewrite ?eqb_is_char;
  repeat match goal with
         | H : _ = true |- _ => rewrite H; simpl
         | H : _ = false |- _ => rewrite H; simpl
         end.

Lemma detect_date_ymd_dot (filename : string) :
  Re.match_exact Re.re_date_ymd_dot (Pathlib.stem filename) = true ->
  detect_filename_pattern filename = ("daily_note", "YYYY.MM.DD")
  /\ Py.contains "-" (Pathlib.stem filename) = false.
Proof.
  unfold detect_filename_pattern. rewrite contains_char.
  generalize (Pathlib.stem filename) as s. intros s Hm.
  rewrite Hm. pose proof Hm as Hm'. split_stem s Hm'.
  destruct (at_dollar_cases _ Hm') as [->| ->]; split; decide_rules;
    reflexivity.
Qed.

Lemma detect_date_ymd_hyphen (filename : string) :
  Re.match_exact Re.re_date_ymd_hyphen (Pathlib.stem filename) = true ->
  detect_filename_pattern filename = ("daily_note", "YYYY-MM-DD")
  /\ Py.contains "-" (Pathlib.stem filename) = true.
Proof.
  unfold detect_filename_pattern. rewrite contains_char.
  generalize (Pathlib.stem filename) as s. intros s Hm.
  rewrite Hm. pose proof Hm as Hm'. split_stem s Hm'.
  destruct (at_dollar_cases _ Hm') as [->| ->]; split; decide_rules;
    reflexivity.
Qed.

Lemma detect_date_mdy (filename : string) :
  Re.match_exact Re.re_date_mdy (Pathlib.stem filename) = true ->
  detect_filename_pattern filename = ("daily_note", "MM-DD-YYYY")
  /\ Py.contains "-" (Pathlib.stem filename) = true.
Proof.
  unfold detect_filename_pattern. rewrite contains_char.
  generalize (Pathlib.stem filename) as s. intros s Hm.
  rewrite Hm. pose proof Hm as Hm'. split_stem s Hm'.
  destruct (at_dollar_cases _ Hm') as [->| ->]; split; decide_rules;
    reflexivity.
Qed.

Lemma detect_week_shape (filename : string) :
  Re.match_exact Re.re_week (Pathlib.stem filename) = true ->
  detect_filename_pattern filename = ("weekly_note", "YYYY-Www").
Proof.
  unfold detect_filename_pattern.
  generalize (Pathlib.stem filename) as s. intros s Hm.
  rewrite Hm. pose proof Hm as Hm'. split_stem s Hm'.
  destruct (at_dollar_cases _ Hm') as [->| ->]; decide_rules; reflexivity.
Qed.

Lemma detect_zettelkasten_shape (filename : string) :
  Re.match_exact (Re.digits 14) (Pathlib.stem filename) = true ->
  detect_filename_pattern filename = ("zettelkasten", "YYYYMMDDHHmmss").
Proof.
  unfold detect_filename_pattern.
  generalize (Pathlib.stem filename) as s. intros s Hm.
  rewrite Hm. pose proof Hm as Hm'. split_stem s Hm'.
  destruct (at_dollar_cases _ Hm') as [->| ->]; decide_rules; reflexivity.
Qed.

Lemma detect_timestamp_shape (filename : string) :
  Re.match_exact (Re.digits 12) (Pathlib.stem filename) = true ->
  detect_filename_pattern filename = ("timestamp", "YYYYMMDDHHmm").
Proof.
  unfold detect_filename_pattern.
  generalize (Pathlib.stem filename) as s. intros s Hm.
  rewrite Hm. pose proof Hm as Hm'. split_stem s Hm'.
  destruct (at_dollar_cases _ Hm') as [->| ->]; decide_rules; reflexivity.
Qed.

End DateShapes.

(** X8.  A stem of one of the three date shapes, of the week shape, of
    fourteen digits or of twelve digits matches no earlier rule of the
    classifier: the file gets the pattern type and the format of its own
    rule. *)
Theorem date_and_time_shapes_classified (filename : string) :
  (Re.match_exact Re.re_date_ymd_hyphen (Pathlib.stem filename) = true ->
   detect_filename_pattern filename = ("daily_note", "YYYY-MM-DD"))
  /\ (Re.match_exact Re.re_date_ymd_dot (Pathlib.stem filename) = true ->
      detect_filename_pattern filename = ("daily_note", "YYYY.MM.DD"))
  /\ (Re.match_exact Re.re_date_mdy (Pathlib.stem filename) = true ->
      detect_filename_pattern filename = ("daily_note", "MM-DD-YYYY"))
  /\ (Re.match_exact Re.re_week (Pathlib.stem filename) = true ->
      detect_filename_pattern filename = ("weekly_note", "YYYY-Www"))
  /\ (Re.match_exact (Re.digits 14) (Pathlib.stem filename) = true ->
      detect_filename_pattern filename = ("zettelkasten", "YYYYMMDDHHmmss"))
  /\ (Re.match_exact (Re.digits 12) (Pathlib.stem filename) = true ->
      detect_filename_pattern filename = ("timestamp", "YYYYMMDDHHmm")).
Proof.
  split; [intros H; apply (detect_date_ymd_hyphen filename H)|].
  split; [intros H; apply (detect_date_ymd_dot filename H)|].
  split; [intros H; apply (detect_date_mdy filename H)|].
  split; [apply detect_week_shape|].
  split; [apply detect_zettelkasten_shape|apply detect_timestamp_shape].
Qed.

Lemma date_and_time_shapes_classified_witness :
  detect_filename_pattern "2023-11-05.md" = ("daily_note", "YYYY-MM-DD")
  /\ detect_filename_pattern "2023.11.05.md" = ("daily_note", "YYYY.MM.DD")
  /\ detect_filename_pattern "11-05-2023.md" = ("daily_note", "MM-DD-YYYY")
  /\ detect_filename_pattern "2023-w45.md" = ("weekly_note", "YYYY-Www")
  /\ detect_filename_pattern "20231105093000.md" = ("zettelkasten", "YYYYMMDDHHmmss")
  /\ detect_filename_pattern "202311050930.md" = ("timestamp", "YYYYMMDDHHmm").
Proof.
  split; [exact (proj1 (date_and_time_shapes_classified "2023-11-05.md") eq_refl)|].
  split; [exact (proj1 (proj2 (date_and_time_shapes_classified "2023.11.05.md"))
                       eq_refl)|].
  split; [exact (proj1 (proj2 (proj2
                   (date_and_time_shapes_classified "11-05-2023.md"))) eq_refl)|].
  split; [exact (proj1 (proj2 (proj2 (proj2
                   (date_and_time_shapes_classified "2023-w45.md")))) eq_refl)|].
  split; [exact (proj1 (proj2 (proj2 (proj2 (proj2
                   (date_and_time_shapes_classified "20231105093000.md")))))
                       eq_refl)|].
  exact (proj2 (proj2 (proj2 (proj2 (proj2
           (date_and_time_shapes_classified "202311050930.md"))))) eq_refl).
Defined.

(** X9.  The redacted name of a daily note keeps the separator of the stem
    and not the order of its fields: a stem of the shape YYYY-MM-DD or
    MM-DD-YYYY gives [2024-01-15] and the extension, a stem of the shape
    YYYY.MM.DD gives [2024.01.15] and the extension. *)
Theorem daily_note_redaction (filename : string) :
  (Re.match_exact Re.re_date_ymd_hyphen (Pathlib.stem filename) = true
   \/ Re.match_exact Re.re_date_mdy (Pathlib.stem filename) = true ->
   redact_filename filename (fst (detect_filename_pattern filename))
   = "2024-01-15" +++ Pathlib.suffix filename)
  /\ (Re.match_exact Re.re_date_ymd_dot (Pathlib.stem filename) = true ->
      redact_filename filename (fst (detect_filename_pattern filename))
      = "2024.01.15" +++ Pathlib.suffix filename).
Proof.
  split.
  - intros [H|H].
    + destruct (detect_date_ymd_hyphen filename H) as [-> Hc].
      unfold redact_filename. cbn [fst String.eqb Ascii.eqb Bool.eqb].
      now rewrite Hc.
    + destruct (detect_date_mdy filename H) as [-> Hc].
      unfold redact_filename. cbn [fst String.eqb Ascii.eqb Bool.eqb].
      now rewrite Hc.
  - intros H. destruct (detect_date_ymd_dot filename H) as [-> Hc].
    unfold redact_filename. cbn [fst String.eqb Ascii.eqb Bool.eqb].
    now rewrite Hc.
Qed.

Lemma daily_note_redaction_witness :
  redact_filename "11-05-2023.md" (fst (detect_filename_pattern "11-05-2023.md"))
  = "2024-01-15.md"
  /\ redact_filename "2023.11.05.txt"
       (fst (detect_filename_pattern "2023.11.05.txt"))
     = "2024.01.15.txt".
Proof.
  split.
  - exact (proj1 (daily_note_redaction "11-05-2023.md") (or_intror eq_refl)).
  - exact (proj2 (daily_note_redaction "2023.11.05.txt") eq_refl).
Defined.

(** ** The categorizer *)

Ltac in_cases H :=
  repeat (destruct H as [H|H]; [try (injection H as <- <-)|]);
  [ .. | contradiction ].

Lemma categories_disjoint (ext c1 c2 : string) (exts1 exts2 : list string) :
  In (c1, exts1) categories -> In (c2, exts2) categories ->
  Py.mem ext exts1 = true -> Py.mem ext exts2 = true ->
  c1 = c2.
Proof.
  intros H1 H2 M1 M2. unfold categories in H1, H2.
  in_cases H1; in_cases H2; try reflexivity;
    apply mem_In in M1; simpl in M1;
    repeat (destruct M1 as [M1|M1]; [subst ext; discriminate M2|]);
    contradiction.
Qed.

Lemma categories_functional (c : string) (exts1 exts2 : list string) :
  In (c, exts1) categories -> In (c, exts2) categories -> exts1 = exts2.
Proof.
  intros H1 H2. unfold categories in H1, H2.
  repeat (destruct H1 as [H1|H1]; [injection H1 as <- <-|]);
    [ .. | contradiction ];
    repeat (destruct H2 as [H2|H2];
            [first [discriminate H2 | now injection H2 as <-]|]);
    contradiction.
Qed.

Lemma other_not_category (exts : list string) : ~ In ("other", exts) categories.
Proof.
  unfold categories. intros H.
  repeat (destruct H as [H|H]; [discriminate H|]). contradiction.
Qed.

(** X10.  [get_file_type_category] returns a category of its table exactly
    when the lower-cased extension is listed under it, whatever the order of
    the table, since no extension is listed twice; it returns [other]
    exactly when the lower-cased extension is listed nowhere, as for a file
    name without extension. *)
Theorem category_characterised (filename : string) :
  (forall c exts,
      In (c, exts) categories ->
      (get_file_type_category filename = c
       <-> Py.mem (Py.lower (Pathlib.suffix filename)) exts = true))
  /\ (get_file_type_category filename = "other"
      <-> forall c exts, In (c, exts) categories ->
                         Py.mem (Py.lower (Pathlib.suffix filename)) exts = false)
  /\ (Pathlib.suffix filename = "" -> get_file_type_category filename = "other").
Proof.
  unfold get_file_type_category.
  set (ext := Py.lower (Pathlib.suffix filename)).
  destruct (find (fun cat => Py.mem ext (snd cat)) categories) as [[c0 exts0]|] eqn:E.
  - apply find_some in E as [Hin Hm]. cbn [fst snd] in *.
    split; [|split].
    + intros c exts Hc. split.
      * intros <-. now rewrite (categories_functional _ _ _ Hc Hin).
      * intros Hm'. exact (categories_disjoint ext _ _ _ _ Hin Hc Hm Hm').
    + split.
      * intros ->. now apply other_not_category in Hin.
      * intros H. rewrite (H _ _ Hin) in Hm. discriminate.
    + intros Hs. subst ext. rewrite Hs in Hm. unfold categories in Hin.
      repeat (destruct Hin as [Hin|Hin];
              [injection Hin as <- <-; discriminate Hm|]).
      contradiction.
  - split; [|split].
    + intros c exts Hc. split.
      * intros <-. now apply other_not_category in Hc.
      * intros Hm. pose proof (find_none _ _ E _ Hc) as Hn. cbn [snd] in Hn.
        congruence.
    + split; [|reflexivity]. intros _ c exts Hc.
      exact (find_none _ _ E _ Hc).
    + reflexivity.
Qed.

Lemma category_characterised_witness :
  get_file_type_category "Plan.PNG" = "images"
  /\ get_file_type_category "Makefile" = "other".
Proof.
  destruct (category_characterised "Plan.PNG") as [H _].
  destruct (category_characterised "Makefile") as (_ & _ & H3).
  split.
  - apply (H "images" [".png"; ".jpg"; ".jpeg"; ".gif"; ".svg"; ".webp"; ".bmp"]).
    + simpl. auto.
    + reflexivity.
  - apply H3. reflexivity.
Defined.

(** ** The examples of a small folder *)

Lemma shown_examples_distinct (fs : list FileEntry) :
  forall shown seen,
    shown < 5 ->
    NoDup (map pattern fs) ->
    (forall f, In f fs -> ~ In (pattern f) seen) ->
    shown_examples fs shown seen = firstn (5 - shown) fs.
Proof.
  induction fs as [|f fs IH]; intros shown seen Hs Hn Hd;
    [now rewrite firstn_nil|].
  cbn [shown_examples]. simpl in Hn. apply NoDup_cons_iff in Hn as [Hf Hn].
  assert (Hm : Py.mem (pattern f) seen = false).
  { destruct (Py.mem (pattern f) seen) eqn:E; [|reflexivity].
    apply mem_In in E. elim (Hd f (or_introl eq_refl) E). }
  rewrite Hm. cbn [negb orb].
  replace (5 - shown) with (S (5 - S shown)) by lia. cbn [firstn]. f_equal.
  destruct (5 <=? S shown) eqn:E5.
  - apply Nat.leb_le in E5. replace (5 - S shown) with 0 by lia. reflexivity.
  - apply Nat.leb_gt in E5. apply IH; [exact E5|exact Hn|].
    intros f' Hf' [E|Hin].
    + apply Hf. rewrite E. now apply in_map.
    + exact (Hd f' (or_intror Hf') Hin).
Qed.

Lemma shown_examples_short (fs : list FileEntry) :
  forall shown seen,
    shown + List.length fs <= 3 -> shown_examples fs shown seen = fs.
Proof.
  induction fs as [|f fs IH]; intros shown seen Hl; [reflexivity|].
  cbn [shown_examples]. cbn [List.length] in Hl.
  assert (E : (shown <? 3) = true) by (apply Nat.ltb_lt; lia).
  rewrite E, orb_true_r.
  assert (E5 : (5 <=? S shown) = false) by (apply Nat.leb_gt; lia).
  rewrite E5. f_equal. apply IH. lia.
Qed.

(** X11.  A folder with one to three files has a row for each of its files
    and no note of files left; so has a folder with up to five files whose
    pattern types all differ. *)
Theorem small_folder_fully_shown (md folder_path : string) (info : FolderInfo) :
  files info <> [] ->
  List.length (files info) <= 3
  \/ (List.length (files info) <= 5 /\ NoDup (map pattern (files info))) ->
  folder_detail md folder_path info
  = md +++ detail_heading folder_path +++ table_head +++ rows (files info) +++ nl.
Proof.
  intros Hne Hsmall.
  assert (E : shown_examples (files info) 0 [] = files info).
  { destruct Hsmall as [H3|[H5 Hn]].
    - now apply shown_examples_short.
    - rewrite shown_examples_distinct; [|lia|exact Hn|intros f _ []].
      now apply firstn_all2. }
  unfold folder_detail, detail_heading, table_head.
  destruct (files info) as [|f fs] eqn:Ef; [congruence|].
  cbn [nonempty]. rewrite examples_loop_spec, E. cbn [Nat.add].
  rewrite Nat.sub_diag. cbn [Nat.ltb Nat.leb].
  now rewrite !append_assoc.
Qed.

Lemma small_folder_fully_shown_witness :
  folder_detail "" "Journal"
    (folder_info_of ["Journal"] [] ["2024-01-15.md"; "2024-01-16.md"])
  = detail_heading "Journal" +++ table_head
    +++ rows [entry_of "2024-01-15.md"; entry_of "2024-01-16.md"] +++ nl.
Proof.
  refine (small_folder_fully_shown "" "Journal"
            (folder_info_of ["Journal"] [] ["2024-01-15.md"; "2024-01-16.md"])
            _ (or_introl _)).
  - discriminate.
  - simpl. lia.
Defined.

(** ** Sorting *)

Lemma insert_sorted_perm {A : Type} (le : A -> A -> bool) (x : A) (l : list A) :
  Permutation (insert_sorted le x l) (x :: l).
Proof.
  induction l as [|y l IH]; simpl; [reflexivity|].
  destruct (le x y); [reflexivity|].
  rewrite IH. apply perm_swap.
Qed.

Lemma py_sorted_perm {A : Type} (le : A -> A -> bool) (l : list A) :
  Permutation (py_sorted le l) l.
Proof.
  induction l as [|x l IH]; [reflexivity|].
  cbn [py_sorted fold_right]. fold (py_sorted le l).
  rewrite insert_sorted_perm. now constructor.
Qed.

Lemma insert_sorted_sorted {A : Type} (le : A -> A -> bool) (x : A) (l : list A) :
  (forall a b, le a b = true \/ le b a = true) ->
  Sorted (fun a b => le a b = true) l ->
  Sorted (fun a b => le a b = true) (insert_sorted le x l).
Proof.
  intros Htot. induction 1 as [|y l Hs IH Hd]; simpl.
  - repeat constructor.
  - destruct (le x y) eqn:E.
    + repeat constructor; auto.
    + constructor; [exact IH|].
      destruct l as [|z l]; simpl.
      * constructor. destruct (Htot x y); congruence.
      * destruct (le x z).
        -- constructor. destruct (Htot x y); congruence.
        -- inversion Hd; subst. now constructor.
Qed.

Lemma py_sorted_sorted {A : Type} (le : A -> A -> bool) (l : list A) :
  (forall a b, le a b = true \/ le b a = true) ->
  Sorted (fun a b => le a b = true) (py_sorted le l).
Proof.
  intros Htot. induction l as [|x l IH]; [constructor|].
  cbn [py_sorted fold_right]. now apply insert_sorted_sorted.
Qed.

Lemma by_count_desc_total (a b : string * nat) :
  by_count_desc a b = true \/ by_count_desc b a = true.
Proof.
  unfold by_count_desc. destruct (Nat.le_ge_cases (snd a) (snd b)) as [H|H];
    [right|left]; now apply Nat.leb_le.
Qed.

Lemma by_key_total {V : Type} (a b : string * V) :
  by_key a b = true \/ by_key b a = true.
Proof. apply String.leb_total. Qed.

Lemma filter_length_perm {A : Type} (q : A -> bool) (l l' : list A) :
  Permutation l l' -> List.length (filter q l) = List.length (filter q l').
Proof.
  induction 1 as [|x l l' _ IH|x y l|l l' l'' _ IH1 _ IH2]; simpl.
  - reflexivity.
  - destruct (q x); simpl; now rewrite IH.
  - destruct (q x), (q y); reflexivity.
  - now rewrite IH1.
Qed.

(** ** The tree of folders *)

Lemma count_char_app (c : ascii) (a b : string) :
  count_char c (a +++ b) = count_char c a + count_char c b.
Proof. induction a as [|x a IH]; simpl; [reflexivity|]. rewrite IH. lia. Qed.

Lemma count_char_absent (c : ascii) (s : string) :
  char_in c s = false -> count_char c s = 0.
Proof.
  induction s as [|x s IH]; simpl; [reflexivity|].
  intros [Hx Hs]%orb_false_iff. now rewrite Hx, IH.
Qed.

Lemma count_char_outside (p : ascii -> bool) (c : ascii) (s : string) :
  p c = false -> all_in p s = true -> count_char c s = 0.
Proof.
  intros Hc. induction s as [|x s IH]; simpl; [reflexivity|].
  intros [Hx Hs]%andb_true_iff. rewrite (IH Hs).
  destruct (Ascii.eqb x c) eqn:E; [|reflexivity].
  apply Ascii.eqb_eq in E. congruence.
Qed.

Lemma count_char_str_mul (c : ascii) (s : string) (n : nat) :
  count_char c s = 0 -> count_char c (str_mul s n) = 0.
Proof.
  intros H. induction n as [|n IH]; [reflexivity|].
  cbn [str_mul]. now rewrite count_char_app, H, IH.
Qed.

(** The line feeds of a joined text: one between two entries, and those of
    the entries. *)
Lemma count_char_join (l : list string) :
  Forall (fun line => count_char line_feed line = 0) l ->
  count_char line_feed (Py.join nl l) = List.length l - 1.
Proof.
  induction 1 as [|x l Hx Hl IH]; [reflexivity|].
  destruct l as [|y l].
  - simpl. rewrite Hx. reflexivity.
  - change (Py.join nl (x :: y :: l)) with (x +++ nl +++ Py.join nl (y :: l)).
    rewrite !count_char_app, Hx, IH. cbn [List.length]. simpl. lia.
Qed.

(** The names on a path that leads to a node are names of the tree. *)
Lemma locate_names (q : string -> bool) (p : list string) :
  forall n m, all_dir_names q n = true -> locate n p = Some m ->
              Forall (fun d => q d = true) p.
Proof.
  induction p as [|d p IH]; intros n m Hq Hl; [constructor|].
  simpl in Hl. destruct n as [fnames subdirs|]; [|discriminate].
  destruct (dict_get d subdirs) as [sub|] eqn:Hg; [|discriminate].
  apply dict_get_In in Hg. cbn [all_dir_names] in Hq.
  rewrite forallb_forall in Hq. specialize (Hq _ Hg). cbn [fst snd] in Hq.
  apply andb_true_iff in Hq as [Hd Hsub].
  constructor; [exact Hd|]. exact (IH sub m Hsub Hl).
Qed.

Lemma tree_line_no_line_feed (top : list string) (info : FolderInfo) :
  valid_path top -> top <> [] ->
  Forall (fun d => no_line_feed d = true) top ->
  count_char line_feed (tree_line (Py.join "/" top) info) = 0.
Proof.
  intros Hv Hne Hq. unfold tree_line.
  rewrite (split_join top (valid_path_no_sep top Hv) Hne).
  rewrite !count_char_app, count_char_str_mul by reflexivity.
  assert (Hlast : count_char line_feed (last top "") = 0).
  { apply count_char_absent. rewrite Forall_forall in Hq.
    specialize (Hq (last top "")). unfold no_line_feed in Hq.
    apply negb_true_iff, Hq.
    destruct top as [|d top]; [congruence|].
    apply (exists_last (l := d :: top)) in Hne as (l' & a & E).
    rewrite E, last_last. apply in_or_app. right. now left. }
  rewrite Hlast.
  destruct (0 <? file_count info); [|reflexivity].
  rewrite !count_char_app.
  now rewrite (count_char_outside Py.is_digit line_feed _ eq_refl
                 (str_of_nat_digits _)).
Qed.

(** X12.  For the scan of a well-formed vault, [generate_tree] joins
    [total_folders] + 1 entries with line feeds: one for the vault and one
    for each recorded folder below the root.  When neither the name of the
    vault nor the name of a directory has a line feed in it, the text of the
    tree has [total_folders] line feeds, that is [total_folders] + 1
    lines. *)
Theorem tree_has_total_folders_lines (vault_name now : string) (v : Node) :
  well_formed v = true ->
  List.length (generate_tree_lines (scan_vault vault_name now v))
  = S (total_folders (stats (scan_vault vault_name now v)))
  /\ (no_line_feed vault_name = true ->
      all_dir_names no_line_feed v = true ->
      count_char line_feed (generate_tree (scan_vault vault_name now v))
      = total_folders (stats (scan_vault vault_name now v))).
Proof.
  intros Hwf.
  assert (Hlen : List.length (generate_tree_lines (scan_vault vault_name now v))
                 = S (total_folders (stats (scan_vault vault_name now v)))).
  { unfold generate_tree_lines. cbn [List.length].
    rewrite length_map, (filter_length_perm _ _ _ (py_sorted_perm by_key _)).
    now rewrite (scan_total_folders vault_name now v Hwf). }
  split; [exact Hlen|]. intros Hname Hdirs.
  unfold generate_tree. rewrite count_char_join; [rewrite Hlen; lia|].
  unfold generate_tree_lines. constructor.
  - assert (E : root (scan_vault vault_name now v) = vault_name).
    { unfold scan_vault. rewrite os_walk_yields.
      generalize (yields [] v) as ys.
      generalize (mkStats 0 0 [] [] 0) as st.
      generalize (@nil (string * FolderInfo)) as fs.
      intros fs st ys.
      change vault_name with (root (mkStructure vault_name now fs st)) at 2.
      generalize (mkStructure vault_name now fs st) as s0.
      induction ys as [|[[top dirs] fnames] ys IH]; intros s0; [reflexivity|].
      cbn [fold_left]. rewrite IH. unfold visit_yield, visit. cbn [fst snd].
      destruct (nonempty _ || nonempty _); [|reflexivity].
      now destruct (fold_left add_file _ _). }
    rewrite E, !count_char_app.
    unfold no_line_feed in Hname. apply negb_true_iff in Hname.
    now rewrite (count_char_absent _ _ Hname).
  - apply Forall_forall. intros line Hline.
    apply in_map_iff in Hline as [kv [<- Hkv]].
    apply filter_In in Hkv as [Hkv Hkey].
    apply (Permutation_in _ (py_sorted_perm by_key _)) in Hkv.
    rewrite scan_folders in Hkv by exact Hwf.
    apply in_map_iff in Hkv as [[[top dirs] fnames] [<- Hy]].
    apply filter_In in Hy as [Hy _].
    unfold yield_entry, yield_top in *. cbn [fst snd] in *.
    pose proof (yields_valid v _ Hwf Hy) as Hv. unfold yield_top in Hv.
    cbn [fst] in Hv.
    destruct top as [|d top]; [discriminate Hkey|].
    destruct (folder_key_depth (d :: top) Hv) as [-> _]; [discriminate|].
    apply tree_line_no_line_feed; [exact Hv|discriminate|].
    destruct (yields_reach v [] _ _ _ Hwf Hy) as (q & sd & E & Hr & _).
    cbn [app] in E. subst q.
    exact (locate_names no_line_feed _ v _ Hdirs (reach_locate _ _ _ Hr)).
Qed.

Lemma tree_has_total_folders_lines_witness :
  List.length (generate_tree_lines (scan_vault "MyVault" "t0" example_vault))
  = S (total_folders (stats (scan_vault "MyVault" "t0" example_vault)))
  /\ count_char line_feed (generate_tree (scan_vault "MyVault" "t0" example_vault))
     = total_folders (stats (scan_vault "MyVault" "t0" example_vault)).
Proof.
  destruct (tree_has_total_folders_lines "MyVault" "t0" example_vault eq_refl)
    as [H1 H2].
  split; [exact H1|exact (H2 eq_refl eq_refl)].
Defined.

Lemma last_split_join (p : list string) :
  valid_path p -> p <> [] ->
  last (Py.split_on "/" (Py.join "/" p)) "" = last p ""
  /\ List.length (Py.split_on "/" (Py.join "/" p)) = List.length p.
Proof.
  intros Hv Hne. now rewrite (split_join p (valid_path_no_sep p Hv) Hne).
Qed.

(** X13.  In the tree drawn for the scan of a well-formed vault, every
    recorded directory below the root has a line: four spaces for each
    directory between the root and it, the branch sign, the folder sign, its
    own name and, when it has countable files, their number. *)
Theorem tree_line_of_directory (vault_name now : string) (v : Node)
    (p fnames : list string) (subdirs : list (string * Node)) :
  well_formed v = true ->
  reach v p = Some (Dir fnames subdirs) ->
  p <> [] ->
  recorded (map fst subdirs) fnames = true ->
  In (str_mul "    " (List.length p - 1) +++ "├── " +++ "📁 " +++ last p ""
        +++ "/ "
        +++ (if 0 <? List.length (filter keep fnames)
             then "(" +++ Py.str_of_nat (List.length (filter keep fnames))
                      +++ " files)"
             else ""))
     (generate_tree_lines (scan_vault vault_name now v)).
Proof.
  intros Hwf Hr Hne Hrec.
  pose proof (proj1 (reach_valid p v _ Hwf Hr)) as Hv.
  destruct (folder_key_depth p Hv Hne) as [Hk _].
  destruct (last_split_join p Hv Hne) as [Hlast Hlen].
  unfold generate_tree_lines. right.
  rewrite scan_folders by exact Hwf.
  pose proof (reach_yields p v [] fnames subdirs Hr) as Hy. cbn [app] in Hy.
  set (y := (p, map fst subdirs, fnames)) in *.
  apply in_map_iff. exists (yield_entry y). split.
  - unfold yield_entry, y, yield_top, tree_line. cbn [fst snd].
    rewrite Hk, Hlast, Hlen. unfold folder_info_of. cbn [file_count].
    now rewrite !append_assoc.
  - apply filter_In. split.
    + apply (Permutation_in _ (Permutation_sym (py_sorted_perm by_key _))).
      apply in_map, filter_In. split; [exact Hy|exact Hrec].
    + unfold yield_entry, y, yield_top. cbn [fst]. rewrite Hk.
      destruct (valid_path_join p Hv Hne) as (_ & _ & H3).
      apply negb_true_iff, String.eqb_neq. exact H3.
Qed.

Lemma tree_line_of_directory_witness :
  In "    ├── 📁 2024/ (1 files)"
     (generate_tree_lines (scan_vault "V" "t0" deep_vault)).
Proof.
  exact (tree_line_of_directory "V" "t0" deep_vault ["Projects"; "2024"]
           ["plan.md"] [("Q3", Dir [] [])] eq_refl eq_refl
           ltac:(discriminate) eq_refl).
Defined.

(** ** The report *)

(** X14.  In the report of a scan, every row of the table of naming patterns
    shows the format example that [pattern_examples] has for its pattern
    type: the fallback text for an unknown pattern is never used. *)
Theorem pattern_rows_have_examples (vault_name now : string) (v : Node) :
  Forall (fun kv =>
            exists e,
              dict_get (fst kv) pattern_examples = Some e
              /\ pattern_row kv
                 = "| " +++ fst kv +++ " | " +++ Py.str_of_nat (snd kv)
                   +++ " | `" +++ e +++ "` |" +++ nl)
         (py_sorted by_count_desc
            (patterns_found (stats (scan_vault vault_name now v)))).
Proof.
  destruct (scan_balanced vault_name now v) as (_ & _ & _ & [_ Hk]).
  apply Forall_forall. intros kv Hin.
  apply (Permutation_in _ (py_sorted_perm by_count_desc _)) in Hin.
  rewrite Forall_forall in Hk. destruct (Hk kv Hin) as [Hp _].
  unfold pattern_row. unfold pattern_types in Hp. simpl in Hp.
  destruct Hp as [Hp|[Hp|[Hp|[Hp|[Hp|[Hp|[Hp|[]]]]]]]]; rewrite <- Hp;
    eexists; split; reflexivity.
Qed.

Lemma fold_left_append {A : Type} (f : A -> string) (l : list A) :
  forall md, fold_left (fun md x => md +++ f x) l md = md +++ concat_map f l.
Proof.
  induction l as [|x l IH]; intros md; cbn [fold_left concat_map].
  - now rewrite append_nil_r.
  - now rewrite IH, append_assoc.
Qed.

Lemma append_nil_l (s : string) : "" +++ s = s.
Proof. reflexivity. Qed.

(** The section of a folder does not depend on the text before it. *)
Lemma folder_detail_acc (md folder_path : string) (info : FolderInfo) :
  folder_detail md folder_path info = md +++ folder_detail "" folder_path info.
Proof.
  unfold folder_detail. destruct (nonempty (files info)).
  - rewrite !examples_loop_spec.
    destruct (0 <? _); now rewrite !append_assoc, !append_nil_l.
  - now rewrite !append_assoc, !append_nil_l.
Qed.

Lemma fold_left_sections (l : list (string * FolderInfo)) :
  forall md,
    fold_left (fun md kv => folder_detail md (fst kv) (snd kv)) l md
    = md +++ concat_map folder_section l.
Proof.
  induction l as [|kv l IH]; intros md; cbn [fold_left concat_map].
  - now rewrite append_nil_r.
  - rewrite IH, folder_detail_acc, append_assoc. reflexivity.
Qed.

(** X15.  The report is its head, one row for each file type in the order
    of decreasing count, the heading of the patterns, one row for each
    pattern type in the order of decreasing count, the tree between its
    headings, one section for each folder in the ascending order of the
    keys, each the detail text of the folder alone, and the foot. *)
Theorem report_composition (structure : Structure) :
  let types := py_sorted by_count_desc (file_types (stats structure)) in
  let patterns := py_sorted by_count_desc (patterns_found (stats structure)) in
  let sections := py_sorted by_key (folders structure) in
  generate_markdown structure
  = report_head structure +++ concat_map type_row types
    +++ patterns_heading +++ concat_map pattern_row patterns
    +++ tree_heading +++ generate_tree structure +++ details_heading
    +++ concat_map folder_section sections +++ report_foot
  /\ Permutation types (file_types (stats structure))
  /\ Sorted (fun a b => snd b <= snd a) types
  /\ Permutation patterns (patterns_found (stats structure))
  /\ Sorted (fun a b => snd b <= snd a) patterns
  /\ Permutation sections (folders structure)
  /\ Sorted (fun a b => String.leb (fst a) (fst b) = true) sections.
Proof.
  intros types patterns sections.
  assert (Hdesc : forall l : list (string * nat),
             Sorted (fun a b => snd b <= snd a) (py_sorted by_count_desc l)).
  { intros l.
    pose proof (py_sorted_sorted by_count_desc l by_count_desc_total) as Hs.
    induction Hs as [|x l' Hs IH Hd]; constructor; [exact IH|].
    destruct Hd as [|y l'' Hxy]; constructor.
    now apply Nat.leb_le. }
  split; [|split; [|split; [|split; [|split; [|split]]]]].
  - unfold generate_markdown. fold types patterns sections.
    rewrite !fold_left_append, fold_left_sections.
    now rewrite !append_assoc.
  - apply py_sorted_perm.
  - apply Hdesc.
  - apply py_sorted_perm.
  - apply Hdesc.
  - apply py_sorted_perm.
  - apply (py_sorted_sorted by_key). apply by_key_total.
Qed.
